(** * makesite: the content-to-output rendering pipeline

    A shallow embedding of [makesite.py] and the properties of its
    content loader, front-matter splitter, page builder and list builder.

    Conventions of the embedding.
    - A Python [str] is a [string]; its characters are the code points
      0..255.  On that range [\d] is exactly [0-9] and the characters for
      which [str.isspace] holds are 9-13, 28-32, 133 and 160.
    - A Python [dict] with string keys is a [gmap string pyval].
    - An exception is a value of [exn]; a computation that may raise
      returns a [result].
    - The file system is a finite map from paths to file texts, together
      with the lines written to the standard error stream.
    - The third-party capabilities (Jinja2, commonmark, BeautifulSoup,
      [glob], [strftime], the optional [add_parser] module and the
      configured [date_format]) are the fields of the class [Externals]. *)

From stdpp Require Import base strings gmap list sorting.
From Stdlib Require Import ZArith Lia Ascii.

(* ================================================================== *)
(** * Part I: definitions *)
(* ================================================================== *)

(** ** Python's [str] methods used by the program *)

Module Str.

(** [len(s)] *)
Definition len (s : string) : Z := Z.of_nat (String.length s).

(** [c.isspace()] on the code points 0..255. *)
Definition isspace (c : ascii) : bool :=
  let n := Ascii.N_of_ascii c in
  ((9 <=? n) && (n <=? 13) || (28 <=? n) && (n <=? 32)
   || (n =? 133) || (n =? 160))%N.

(** [c] is one of [0-9]. *)
Definition isdigit (c : ascii) : bool :=
  let n := Ascii.N_of_ascii c in ((48 <=? n) && (n <=? 57))%N.

Fixpoint take (n : nat) (s : string) : string :=
  match n, s with
  | S n', String c s' => String c (take n' s')
  | _, _ => ""
  end.

Fixpoint drop (n : nat) (s : string) : string :=
  match n, s with
  | S n', String _ s' => drop n' s'
  | _, _ => s
  end.

(** A slice bound as Python normalises it: a negative index counts from
    the end, and the result is clamped to [0, len(s)]. *)
Definition clamp (n : nat) (i : Z) : nat :=
  Z.to_nat (if (i <? 0)%Z then Z.max 0 (i + Z.of_nat n)
            else Z.min i (Z.of_nat n)).

(** [s[lo:hi]]; [None] stands for an omitted bound. *)
Definition slice (s : string) (lo hi : option Z) : string :=
  let n := String.length s in
  let a := from_option (clamp n) 0 lo in
  let b := from_option (clamp n) n hi in
  take (b - a) (drop a s).

(** [s.find(sub)]: the index of the first occurrence, or [-1]. *)
Fixpoint find (s sub : string) : Z :=
  if String.prefix sub s then 0%Z
  else match s with
       | "" => (-1)%Z
       | String _ s' =>
           let r := find s' sub in
           if (r <? 0)%Z then (-1)%Z else (r + 1)%Z
       end.

(** [s.rfind(sub)]: the index of the last occurrence, or [-1]. *)
Fixpoint rfind (s sub : string) : Z :=
  match s with
  | "" => if String.prefix sub "" then 0%Z else (-1)%Z
  | String _ s' =>
      let r := rfind s' sub in
      if (r <? 0)%Z then (if String.prefix sub s then 0%Z else (-1)%Z)
      else (r + 1)%Z
  end.

(** [s.lstrip()], [s.rstrip()] and [s.strip()] with no argument. *)
Fixpoint lstrip (s : string) : string :=
  match s with
  | "" => ""
  | String c s' => if isspace c then lstrip s' else s
  end.

Fixpoint rstrip (s : string) : string :=
  match s with
  | "" => ""
  | String c s' =>
      match rstrip s' with
      | "" => if isspace c then "" else String c ""
      | r => String c r
      end
  end.

Definition strip (s : string) : string := rstrip (lstrip s).

(** [s.rstrip(c)] for a single character [c]. *)
Fixpoint rstrip_char (c : ascii) (s : string) : string :=
  match s with
  | "" => ""
  | String a s' =>
      match rstrip_char c s' with
      | "" => if decide (a = c) then "" else String a ""
      | r => String a r
      end
  end.

(** [c * n] *)
Fixpoint repeat (c : ascii) (n : nat) : string :=
  match n with
  | O => ""
  | S n' => String c (repeat c n')
  end.

(** [s.split()] with no argument: the maximal runs of characters that
    are not white space, in order. *)
Definition starts_word (s : string) : bool :=
  match s with
  | "" => false
  | String c _ => negb (isspace c)
  end.

Fixpoint split (s : string) : list string :=
  match s with
  | "" => []
  | String c s' =>
      if isspace c then split s'
      else if starts_word s' then
        match split s' with
        | w :: ws => String c w :: ws
        | [] => [String c ""]
        end
      else String c "" :: split s'
  end.

(** [s.split(c)] for a one-character separator [c]; the result is
    never empty. *)
Fixpoint split_char (c : ascii) (s : string) : list string :=
  match s with
  | "" => [""]
  | String a s' =>
      if decide (a = c) then "" :: split_char c s'
      else match split_char c s' with
           | w :: ws => String a w :: ws
           | [] => [String a ""]
           end
  end.

(** [sep.join(l)] *)
Definition join (sep : string) (l : list string) : string :=
  String.concat sep l.

(** [s.endswith(suffix)] and its form with a tuple of suffixes. *)
Definition endswith (s suffix : string) : bool :=
  (String.length suffix <=? String.length s)%nat
  && String.eqb (drop (String.length s - String.length suffix) s) suffix.

Definition endswith_any (s : string) (suffixes : list string) : bool :=
  existsb (endswith s) suffixes.

(** [c in s] for a character [c] *)
Fixpoint contains (c : ascii) (s : string) : bool :=
  match s with
  | "" => false
  | String a s' => bool_decide (a = c) || contains c s'
  end.

(** [a or b] on strings where [a] may be [None]: [b] when [a] is [None]
    or empty. *)
Definition or_else (a : option string) (b : string) : string :=
  match a with
  | Some (String c r) => String c r
  | _ => b
  end.

End Str.

(** ** [os.path] (POSIX flavour) *)

Module Path.

(** [os.path.basename(p)]: [p[p.rfind('/') + 1:]] *)
Definition basename (p : string) : string :=
  let i := (Str.rfind p "/" + 1)%Z in
  Str.slice p (Some i) None.

(** [os.path.dirname(p)]: the head [p[:p.rfind('/') + 1]], with its
    trailing slashes removed unless it consists of slashes only. *)
Definition dirname (p : string) : string :=
  let i := (Str.rfind p "/" + 1)%Z in
  let head := Str.slice p None (Some i) in
  if negb (String.eqb head "")
     && negb (String.eqb head (Str.repeat "/"%char (String.length head)))
  then Str.rstrip_char "/"%char head
  else head.

End Path.

(** ** Exceptions and results *)

Inductive exn : Type :=
  | FileNotFoundError (filename : string)
  | AttributeError (msg : string)
  | ValueError (msg : string)
  | KeyError (key : string)
  | TypeError (msg : string)
  | TemplateError (msg : string).

Inductive result (A : Type) : Type :=
  | Ok (a : A)
  | Err (e : exn).

Arguments Ok {A} a.
Arguments Err {A} e.

(** The computation returned, it did not raise. *)
Definition returns {A : Type} (r : result A) : bool :=
  match r with
  | Ok _ => true
  | Err _ => false
  end.

(** [result] is the error monad; [x ← m; k] runs [m] and, unless it
    raised, continues with [k]. *)
#[global] Instance result_ret : MRet result := λ A a, Ok a.
#[global] Instance result_bind : MBind result := λ A B k m,
  match m with
  | Ok a => k a
  | Err e => Err e
  end.

(** ** The regular expression of [read_content] *)

Module Re.

Definition newline : ascii := "010"%char.

(** [$] without MULTILINE: the end of the string, or just before a
    newline that is its last character. *)
Definition at_end (s : string) : bool :=
  match s with
  | "" => true
  | String c "" => bool_decide (c = newline)
  | _ => false
  end.

(** [(.+)$] from the start of [s]: [.] is any character but a newline;
    the group is greedy, so the longer match is tried first and the
    shorter one on backtracking. *)
Fixpoint dot_plus_end (s : string) : option string :=
  match s with
  | "" => None
  | String c s' =>
      if bool_decide (c = newline) then None
      else match dot_plus_end s' with
           | Some m => Some (String c m)
           | None => if at_end s' then Some (String c "") else None
           end
  end.

(** A sequence of one-character classes matched from the start of [s];
    the result is what follows the matched characters. *)
Fixpoint match_seq (classes : list (ascii → bool)) (s : string)
  : option string :=
  match classes, s with
  | [], _ => Some s
  | p :: ps, String c s' => if p c then match_seq ps s' else None
  | _ :: _, "" => None
  end.

Definition d : ascii → bool := Str.isdigit.
Definition dash (c : ascii) : bool := bool_decide (c = "-"%char).

(** [\d\d\d\d-\d\d-\d\d] *)
Definition date_token : list (ascii → bool) :=
  [d; d; d; d; dash; d; d; dash; d; d].

(** The groups of a successful match: [group(1)] is [None] when the
    optional date part did not take part in the match. *)
Record match_object : Type :=
  { group1 : option string; group2 : string }.

(** [re.search('^(?:(\d\d\d\d-\d\d-\d\d)-)?(.+)$', s)]: the optional
    part is tried first; when the rest of the pattern fails after it,
    the match is retried without it. *)
Definition search (s : string) : option match_object :=
  let without := (λ m, {| group1 := None; group2 := m |}) <$> dot_plus_end s in
  match match_seq (date_token ++ [dash]) s with
  | Some rest =>
      match dot_plus_end rest with
      | Some m => Some {| group1 := Some (Str.take 10 s); group2 := m |}
      | None => without
      end
  | None => without
  end.

End Re.

(** ** [datetime.datetime.strptime(date, '%Y-%m-%d')] *)

Module Date.

Definition digit (c : ascii) : Z := Z.of_N (N_of_ascii c) - 48.

Definition in_range (lo hi : Z) (c : ascii) : bool :=
  Str.isdigit c && (lo <=? digit c)%Z && (digit c <=? hi)%Z.

(** [%Y]: [\d\d\d\d] *)
Definition parse_Y (s : string) : option (Z * string) :=
  match s with
  | String a (String b (String c (String e rest))) =>
      if Str.isdigit a && Str.isdigit b && Str.isdigit c && Str.isdigit e
      then Some (1000 * digit a + 100 * digit b + 10 * digit c + digit e,
                 rest)%Z
      else None
  | _ => None
  end.

(** [%m]: [1[0-2]|0[1-9]|[1-9]], the alternatives in this order *)
Definition parse_m (s : string) : option (Z * string) :=
  match s with
  | String a rest =>
      match rest with
      | String b rest' =>
          if bool_decide (a = "1"%char) && in_range 0 2 b
          then Some (10 + digit b, rest')%Z
          else if bool_decide (a = "0"%char) && in_range 1 9 b
          then Some (digit b, rest')
          else if in_range 1 9 a then Some (digit a, rest) else None
      | "" => if in_range 1 9 a then Some (digit a, rest) else None
      end
  | "" => None
  end.

(** [%d]: [3[0-1]|[1-2]\d|0[1-9]|[1-9]| [1-9]], in this order *)
Definition parse_d (s : string) : option (Z * string) :=
  match s with
  | String a rest =>
      match rest with
      | String b rest' =>
          if bool_decide (a = "3"%char) && in_range 0 1 b
          then Some (30 + digit b, rest')%Z
          else if in_range 1 2 a && Str.isdigit b
          then Some (10 * digit a + digit b, rest')%Z
          else if bool_decide (a = "0"%char) && in_range 1 9 b
          then Some (digit b, rest')
          else if in_range 1 9 a then Some (digit a, rest)
          else if bool_decide (a = " "%char) && in_range 1 9 b
          then Some (digit b, rest')
          else None
      | "" => if in_range 1 9 a then Some (digit a, rest) else None
      end
  | "" => None
  end.

Definition expect_dash (s : string) : option string :=
  match s with
  | String c rest => if bool_decide (c = "-"%char) then Some rest else None
  | "" => None
  end.

Definition is_leap (y : Z) : bool :=
  ((y mod 4 =? 0) && (negb (y mod 100 =? 0) || (y mod 400 =? 0)))%Z.

Definition days_in_month (y m : Z) : Z :=
  if (m =? 2)%Z then (if is_leap y then 29 else 28)
  else if (m =? 4)%Z || (m =? 6)%Z || (m =? 9)%Z || (m =? 11)%Z then 30
  else 31.

(** The fields of the pattern, when the text matches it from its
    start, and the text left over. *)
Definition match_format (s : string) : option (Z * Z * Z * string) :=
  '(y, s1) ← parse_Y s;
  s2 ← expect_dash s1;
  '(m, s3) ← parse_m s2;
  s4 ← expect_dash s3;
  '(dd, s5) ← parse_d s4;
  Some (y, m, dd, s5).

(** [strptime] raises [ValueError] when the text does not match the
    format, when text is left over, and when the fields are not a date
    of the calendar (years 1 to 9999). *)
Definition strptime (s : string) : result (Z * Z * Z) :=
  match match_format s with
  | None =>
      Err (ValueError
             ("time data '" +:+ s +:+ "' does not match format '%Y-%m-%d'"))
  | Some (y, m, dd, rest) =>
      if negb (String.eqb rest "")
      then Err (ValueError ("unconverted data remains: " +:+ rest))
      else if (y <? 1)%Z
      then Err (ValueError "year 0 is out of range")
      else if (days_in_month y m <? dd)%Z
      then Err (ValueError "day is out of range for month")
      else Ok (y, m, dd)
  end.

End Date.

(** ** Dictionaries, the file system and the external capabilities *)

(** A dictionary with string keys.  Every value the program itself
    stores in one is a [str], and the values of the caller's parameters
    are taken to be strings as well. *)
Abbreviation dict := (gmap string string).

(** [d[key]] *)
Definition getitem (d : dict) (key : string) : result string :=
  match d !! key with
  | Some v => Ok v
  | None => Err (KeyError key)
  end.

(** The files by path, and the lines written to [sys.stderr]. *)
Record world : Type :=
  { files : gmap string string; stderr : list string }.

Class Externals : Type := {
  (** the global [date_format], from the site's [vars] module *)
  date_format : string;
  (** [datetime(y, m, d).strftime(fmt)] *)
  strftime : string → Z → Z → Z → string;
  (** [commonmark.commonmark(text)] *)
  commonmark : string → string;
  (** the module [add_parser], when it was imported: its [parse] *)
  add_parser : option (string → string → string);
  (** Jinja2: render a template text against parameters; includes are
      loaded from the files *)
  jinja_render : gmap string string → string → dict → result string;
  (** BeautifulSoup: a parsed document, [soup.find(id=...)] and [.text] *)
  soup : Type;
  tag : Type;
  BeautifulSoup : string → soup;
  soup_find_id : soup → string → option tag;
  tag_text : tag → string;
  (** [glob.glob(pattern)]: the matching paths, in the order in which the
      file system lists them *)
  glob : gmap string string → string → list string;
}.

(** ** The program *)

Section Makesite.
Context `{Externals}.

(** [fread]: read a file; opening a missing file raises.  The text of
    a file is what reading it gives: the translation of line ends that
    [open(filename, 'r')] does is not modelled. *)
Definition fread (w : world) (filename : string) : result string :=
  match files w !! filename with
  | Some text => Ok text
  | None => Err (FileNotFoundError filename)
  end.

(** [fwrite]: write a file, creating its directory first.  Directories
    are not part of the modelled file system: [os.path.isdir('')] is
    false and [os.makedirs('')] raises, while every other directory is
    taken to be there or to be made.  The other ways in which
    [os.makedirs] and [open] raise (a parent that is a regular file, a
    path that names a directory) are left out, so the properties below
    say what holds when a write returns, not that it does. *)
Definition fwrite (w : world) (filename text : string) : result world :=
  let basedir := Path.dirname filename in
  if String.eqb basedir "" then Err (FileNotFoundError basedir)
  else Ok {| files := <[filename := text]> (files w); stderr := stderr w |}.

(** [log]: one formatted line on the standard error stream. *)
Definition log (w : world) (line : string) : world :=
  {| files := files w; stderr := stderr w ++ [line +:+ String Re.newline ""] |}.

(** [truncate(text, words)]: [' '.join(text.split()[:words])] *)
Definition truncate (text : string) (words : Z) : string :=
  let ws := Str.split text in
  Str.join " " (take (Str.clamp (length ws) words) ws).

(** [format_date(date, date_format_override)] *)
Definition format_date (date : string) (date_format_override : option string)
  : result string :=
  '(y, m, dd) ← Date.strptime date;
  Ok (strftime (Str.or_else date_format_override date_format) y m dd).

Definition default_boundary : string := "{# /variables #}".

(** [separate_content_and_variables(text, boundary)] *)
Definition separate_content_and_variables (text boundary : string)
  : string * string :=
  let pos := Str.find text boundary in
  if (pos >? 0)%Z
  then (Str.strip (Str.slice text None (Some pos)),
        Str.strip (Str.slice text (Some (pos + Str.len boundary)%Z) None))
  else ("", text).

Definition markdown_extensions : list string :=
  [".md"; ".mkd"; ".mkdn"; ".mdown"; ".markdown"].

Definition md_header : string := "{% include 'md_header.html' %}".
Definition md_footer : string := "{% include 'md_footer.html' %}".
Definition rfc_2822_format : string := "%a, %d %b %Y %H:%M:%S +0000".

(** [match.group(n)]: on [None] the attribute access raises. *)
Definition group {A : Type} (m : option Re.match_object)
    (g : Re.match_object → A) : result A :=
  match m with
  | Some mo => Ok (g mo)
  | None => Err (AttributeError "'NoneType' object has no attribute 'group'")
  end.

(** [read_content(filename)] *)
Definition read_content (w : world) (filename : string) : result dict :=
  text ← fread w filename;
  let date_slug := hd "" (Str.split_char "." (Path.basename filename)) in
  let m := Re.search date_slug in
  g1 ← group m Re.group1;
  date ← format_date (Str.or_else g1 "1970-01-01") None;
  g1 ← group m Re.group1;
  let date_ymd := Str.or_else g1 "1970-01-01" in
  g1 ← group m Re.group1;
  date_rfc_2822 ←
    format_date (Str.or_else g1 "1970-01-01") (Some rfc_2822_format);
  slug ← group m Re.group2;
  let content : dict :=
    <["slug" := slug]> (<["date_rfc_2822" := date_rfc_2822]>
      (<["date_ymd" := date_ymd]> (<["date" := date]> ∅))) in
  let text :=
    if Str.endswith_any filename markdown_extensions
    then
      let '(variables, text) :=
        separate_content_and_variables text default_boundary in
      variables +:+ md_header +:+ commonmark text +:+ md_footer
    else text in
  let text :=
    match add_parser with
    | Some parse => parse text filename
    | None => text
    end in
  Ok (<["content" := text]> content).

(** [render(html, **params)]: a parameter named [html] collides with
    the first argument. *)
Definition render (w : world) (html : string) (params : dict)
  : result string :=
  match params !! "html" with
  | Some _ =>
      Err (TypeError "render() got multiple values for argument 'html'")
  | None => jinja_render (files w) html params
  end.

(** [x.text] where [x] is the result of [soup.find]: on [None] the
    attribute access raises. *)
Definition text_of (x : option tag) : result string :=
  match x with
  | Some t => Ok (tag_text t)
  | None => Err (AttributeError "'NoneType' object has no attribute 'text'")
  end.

(** [get_title_and_summary(path)] *)
Definition get_title_and_summary (w : world) (path : string)
  : result (string * string) :=
  html ← fread w path;
  let soup := BeautifulSoup html in
  title ← text_of (soup_find_id soup "title");
  post ← text_of (soup_find_id soup "post");
  Ok (title, truncate post 25).

(** *** [make_pages] *)

(** The variables of the loop of [make_pages]. *)
Record pages_state : Type :=
  { ps_params : dict; ps_items : list dict; ps_world : world }.

(** One turn of the loop, for the source path [src_path]. *)
Definition make_pages_body (dst : string) (st : pages_state)
    (src_path : string) : result pages_state :=
  let w := ps_world st in
  context ← read_content w src_path;
  (* params.update(context) *)
  let params := context ∪ ps_params st in
  dst_path ← render w dst params;
  content ← getitem context "content";
  output ← render w content params;
  let context := <["dest_path" := dst_path]> context in
  let items := ps_items st ++ [context] in
  let w := log w ("Rendering " +:+ src_path +:+ " => " +:+ dst_path
                  +:+ " ...") in
  w ← fwrite w dst_path output;
  Ok {| ps_params := params; ps_items := items; ps_world := w |}.

(** A [for] loop whose body may raise. *)
Fixpoint for_each {S A : Type} (body : S → A → result S) (st : S)
    (l : list A) : result S :=
  match l with
  | [] => Ok st
  | a :: l' => st' ← body st a; for_each body st' l'
  end.

(** [sorted(l, key=..., reverse=True)] on the list of pairs of a key
    and an item: descending keys, and items of equal keys in their
    original order. *)
Fixpoint insert_desc (x : string * dict) (l : list (string * dict))
  : list (string * dict) :=
  match l with
  | [] => [x]
  | y :: l' =>
      if String.ltb x.1 y.1 then y :: insert_desc x l' else x :: y :: l'
  end.

Fixpoint sort_desc (l : list (string * dict)) : list (string * dict) :=
  match l with
  | [] => []
  | x :: l' => insert_desc x (sort_desc l')
  end.

(** [sorted(items, key=lambda x: x['date_ymd'], reverse=True)]: the
    keys are computed first, one per item. *)
Definition sorted_by_date_ymd_reverse (items : list dict)
  : result (list dict) :=
  keys ← mapM (λ x, getitem x "date_ymd") items;
  Ok ((sort_desc (zip keys items)).*2).

(** [make_pages(src, dst, layout, **params)] *)
Definition make_pages (w : world) (src dst : string)
    (layout : option string) (params : dict) : result (list dict * world) :=
  st ← for_each (make_pages_body dst)
         {| ps_params := params; ps_items := []; ps_world := w |}
         (glob (files w) src);
  items ← sorted_by_date_ymd_reverse (ps_items st);
  Ok (items, ps_world st).

(** *** [make_list] *)

(** The per-item mapping of [make_list], before the title and the
    summary are added: [dict(params, **post)]. *)
Definition item_params_of (params post : dict) : dict := post ∪ params.

(** The fragment rendered for one post. *)
Definition render_item (w : world) (item_layout : string) (params post : dict)
  : result string :=
  let item_params := item_params_of params post in
  dest_path ← getitem item_params "dest_path";
  '(title, summary) ← get_title_and_summary w dest_path;
  let item_params := <["title" := title]> item_params in
  let item_params := <["summary" := summary]> item_params in
  render w item_layout item_params.

(** The loop of [make_list] over [enumerate(posts)], from index [k] on,
    with the fragments rendered so far. *)
Fixpoint make_list_loop (w : world) (item_layout : string)
    (limit : option Z) (params : dict) (k : Z) (posts : list dict)
    (items : list string) : result (list string) :=
  match posts with
  | [] => Ok items
  | post :: posts' =>
      item ← render_item w item_layout params post;
      let items := items ++ [item] in
      (* Limit to `limit` items *)
      if match limit with
         | Some l => (k + 1 >=? l)%Z
         | None => false
         end
      then Ok items
      else make_list_loop w item_layout limit params (k + 1) posts' items
  end.

(** [make_list(posts, dst, list_layout, item_layout, limit, **params)] *)
Definition make_list (w : world) (posts : list dict)
    (dst list_layout item_layout : string) (limit : option Z)
    (params : dict) : result world :=
  items ← make_list_loop w item_layout limit params 0 posts [];
  let params := <["content" := Str.join "" items]> params in
  dst_path ← render w dst params;
  output ← render w list_layout params;
  let w := log w ("Rendering list => " +:+ dst_path +:+ " ...") in
  fwrite w dst_path output.

End Makesite.

(** ** Notions used to state the properties *)

(** [d] is a date token: it matches [\d\d\d\d-\d\d-\d\d] entirely. *)
Definition is_date_token (d : string) : bool :=
  bool_decide (Re.match_seq Re.date_token d = Some "").

(** The year, month and day that the digits of a date token denote. *)
Definition token_fields (d : string) : Z * Z * Z :=
  match d with
  | String y1 (String y2 (String y3 (String y4 (String _
      (String m1 (String m2 (String _ (String d1 (String d2 _))))))))) =>
      (1000 * Date.digit y1 + 100 * Date.digit y2 + 10 * Date.digit y3
       + Date.digit y4,
       10 * Date.digit m1 + Date.digit m2,
       10 * Date.digit d1 + Date.digit d2)%Z
  | _ => (0, 0, 0)%Z
  end.

(** The token denotes a day of the calendar, in the years 1 to 9999. *)
Definition is_calendar_date (d : string) : bool :=
  let '(y, m, dd) := token_fields d in
  ((1 <=? y) && (1 <=? m) && (m <=? 12) && (1 <=? dd)
   && (dd <=? Date.days_in_month y m))%Z.

(** [s] starts with a date token and a dash. *)
Definition has_date_prefix (s : string) : Prop :=
  ∃ d rest, s = d +:+ "-" +:+ rest ∧ is_date_token d = true.

(** [s] without its leading date token and dash, when something follows
    them. *)
Definition remove_date_prefix (s : string) : string :=
  if is_date_token (Str.take 10 s) && String.prefix "-" (Str.drop 10 s)
     && negb (String.eqb (Str.drop 11 s) "")
  then Str.drop 11 s
  else s.

(** White space only, and a word: not empty and free of white space. *)
Fixpoint all_space (s : string) : bool :=
  match s with
  | "" => true
  | String c s' => Str.isspace c && all_space s'
  end.

Fixpoint no_space (s : string) : bool :=
  match s with
  | "" => true
  | String c s' => negb (Str.isspace c) && no_space s'
  end.

Definition is_word (s : string) : bool :=
  negb (String.eqb s "") && no_space s.

(** The text made of the given words, each preceded by its gap. *)
Fixpoint spaced (gaps_words : list (string * string)) : string :=
  match gaps_words with
  | [] => ""
  | (gap, word) :: l => gap +:+ word +:+ spaced l
  end.

(** A well-formed sequence of gaps and words: gaps are white space,
    words are words, and only the first gap may be empty. *)
Definition well_spaced (gaps_words : list (string * string)) : Prop :=
  Forall (λ gw, all_space gw.1 = true ∧ is_word gw.2 = true) gaps_words
  ∧ Forall (λ gw, gw.1 ≠ "") (tail gaps_words).

(** [sub] occurs in [s] with [pre] before it and [post] after it. *)
Definition occurs (sub s pre post : string) : Prop :=
  s = pre +:+ sub +:+ post.

(** The first occurrence: no occurrence starts further left. *)
Definition first_occurrence (sub s pre post : string) : Prop :=
  occurs sub s pre post
  ∧ ∀ pre' post', occurs sub s pre' post' →
      (String.length pre <= String.length pre')%nat.

(** What an exception says when it is printed. *)
Definition exn_text (e : exn) : string :=
  match e with
  | FileNotFoundError filename =>
      "[Errno 2] No such file or directory: '" +:+ filename +:+ "'"
  | AttributeError msg | ValueError msg | TypeError msg
  | TemplateError msg => msg
  | KeyError key => "'" +:+ key +:+ "'"
  end.

(** An exception identifies a file when its text contains the path. *)
Definition mentions (e : exn) (path : string) : bool :=
  (0 <=? Str.find (exn_text e) path)%Z.

(** The keys of the record that [read_content] returns. *)
Definition content_keys : gset string :=
  {["date"; "date_ymd"; "date_rfc_2822"; "slug"; "content"]}.

(** The date by which the records are sorted. *)
Definition date_ymd_of (x : dict) : string := default "" (x !! "date_ymd").

(** Descending order of dates, between a record and a later one. *)
Definition date_desc (x y : dict) : Prop :=
  String.le (date_ymd_of y) (date_ymd_of x).

(** The number of fragments that a list of [n] posts gets under a limit:
    all of them without a limit, and otherwise at most the limit, a
    limit below 1 counting as 1. *)
Definition rendered_count (limit : option Z) (n : nat) : nat :=
  match limit with
  | None => n
  | Some l => Nat.min n (Z.to_nat (Z.max 1 l))
  end.

(** Descending order of keys, between a pair and a later one. *)
Definition key_desc (p q : string * dict) : Prop := String.le q.1 p.1.

Section Records.
Context `{Externals}.

(** The text of a source file as the content loader assembles it,
    before the custom parser: a Markdown file is split, converted and
    wrapped; any other file is taken as it is. *)
Definition assembled_text (filename text : string) : string :=
  if Str.endswith_any filename markdown_extensions
  then (separate_content_and_variables text default_boundary).1
       +:+ md_header
       +:+ commonmark (separate_content_and_variables text default_boundary).2
       +:+ md_footer
  else text.

(** The same text after the custom parser, when there is one. *)
Definition parsed_text (filename text : string) : string :=
  match add_parser with
  | Some parse => parse (assembled_text filename text) filename
  | None => assembled_text filename text
  end.

(** The record of a file whose name matched with the groups [mo] and
    whose date is the day [dd] of the month [m] of the year [y]. *)
Definition record_of (filename text : string) (mo : Re.match_object)
    (y m dd : Z) : dict :=
  <["content" := parsed_text filename text]>
    (<["slug" := Re.group2 mo]>
      (<["date_rfc_2822" := strftime rfc_2822_format y m dd]>
        (<["date_ymd" := Str.or_else (Re.group1 mo) "1970-01-01"]>
          (<["date" := strftime date_format y m dd]> ∅)))).

End Records.

Section CopyThenExtend.
Context `{Externals}.

(** The loop body of [make_pages] as a copy-then-extend design would
    have it: each item extends a fresh copy of the mapping [params0]
    that the builder was given, and the loop's own mapping is left as
    it is. *)
Definition make_pages_body_copying (dst : string) (params0 : dict)
    (st : pages_state) (src_path : string) : result pages_state :=
  let w := ps_world st in
  context ← read_content w src_path;
  let params := context ∪ params0 in
  dst_path ← render w dst params;
  content ← getitem context "content";
  output ← render w content params;
  let context := <["dest_path" := dst_path]> context in
  let items := ps_items st ++ [context] in
  let w := log w ("Rendering " +:+ src_path +:+ " => " +:+ dst_path
                  +:+ " ...") in
  w ← fwrite w dst_path output;
  Ok {| ps_params := ps_params st; ps_items := items; ps_world := w |}.

Definition make_pages_copying (w : world) (src dst : string)
    (layout : option string) (params : dict) : result (list dict * world) :=
  st ← for_each (make_pages_body_copying dst params)
         {| ps_params := params; ps_items := []; ps_world := w |}
         (glob (files w) src);
  items ← sorted_by_date_ymd_reverse (ps_items st);
  Ok (items, ps_world st).

(** The loop states of [make_pages] and of its copy-then-extend
    variant agree on the items and on the world; the mapping of the
    former is the initial one, possibly extended by one record. *)
Definition agree (params0 : dict) (st st' : pages_state) : Prop :=
  ps_items st = ps_items st' ∧ ps_world st = ps_world st'
  ∧ (ps_params st = params0
     ∨ ∃ previous, dom previous = content_keys
                   ∧ ps_params st = previous ∪ params0).

End CopyThenExtend.

(** ** A small instance of the external capabilities

    The concrete runs of this development need some template engine,
    some HTML parser and some directory listing.  The ones below are
    deliberately tiny; every general theorem is proved for all instances
    of [Externals]. *)

Module Demo.

(** A template engine that only knows placeholders: every
    [{{ name }}] is replaced by the parameter [name], or by nothing
    when there is no such parameter.  [skip] counts the characters of
    a placeholder that are still to be passed over. *)
Fixpoint expand (params : dict) (skip : nat) (s : string) : string :=
  match s with
  | "" => ""
  | String c s' =>
      match skip with
      | S n => expand params n s'
      | O =>
          let close := Str.find s " }}" in
          if String.prefix "{{ " s && (3 <=? close)%Z
          then default "" (params !! Str.slice s (Some 3%Z) (Some close))
               +:+ expand params (Z.to_nat close + 2) s'
          else String c (expand params 0 s')
      end
  end.

Definition render_placeholders (fs : gmap string string) (html : string)
    (params : dict) : result string :=
  Ok (expand params 0 html).

(** The text between [id=<name>>] and the next [<]. *)
Fixpoint until_lt (s : string) : string :=
  match s with
  | "" => ""
  | String c s' => if bool_decide (c = "<"%char) then "" else String c (until_lt s')
  end.

Definition find_id (html name : string) : option string :=
  let marker := "id=" +:+ name +:+ ">" in
  let pos := Str.find html marker in
  if (pos <? 0)%Z then None
  else Some (until_lt (Str.slice html (Some (pos + Str.len marker)%Z) None)).

(** The paths that start with what precedes the [*] of the pattern
    and end with what follows it. *)
Definition list_files (fs : gmap string string) (pattern : string)
  : list string :=
  let pos := Str.find pattern "*" in
  let before := Str.slice pattern None (Some pos) in
  let after := Str.slice pattern (Some (pos + 1)%Z) None in
  filter (λ path, String.prefix before path && Str.endswith path after = true)
         (map_to_list fs).*1.

#[export] Instance externals : Externals := {|
  date_format := "%b %d, %Y";
  strftime fmt y m dd := fmt;
  commonmark text := "<p>" +:+ text +:+ "</p>";
  add_parser := None;
  jinja_render := render_placeholders;
  soup := string;
  tag := string;
  BeautifulSoup html := html;
  soup_find_id := find_id;
  tag_text t := t;
  glob := list_files;
|}.

Definition page (title body : string) : string :=
  "<h1 id=title>" +:+ title +:+ "</h1><div id=post>" +:+ body +:+ "</div>".

(** A content directory with three dated posts, listed out of order. *)
Definition blog : world :=
  {| files := list_to_map
       [("content/blog/2020-01-01-first.html", page "First" "one two three");
        ("content/blog/2021-06-15-second.html", page "Second" "four five");
        ("content/blog/2019-12-31-zeroth.html", page "Zeroth" "six")];
     stderr := [] |}.

(** The destination template of a section, as [main] builds it. *)
Definition blog_dst : string := "_site/blog/{{ slug }}/index.html".

(** A body of thirty words. *)
Definition thirty_words : string :=
  "w01 w02 w03 w04 w05 w06 w07 w08 w09 w10 w11 w12 w13 w14 w15 w16 w17 w18 w19 w20 w21 w22 w23 w24 w25 w26 w27 w28 w29 w30".

(** A site with some unusual sources and two rendered pages: one
    without a title element, one with a long body. *)
Definition site : world :=
  {| files := list_to_map
       [("content/blog/2020-13-01-post.md", "text");
        ("content/my.note.md", "vars{# /variables #}body");
        ("content/.hidden", "text");
        ("_site/blog/broken/index.html", "<div id=post>text</div>");
        ("_site/blog/long/index.html", page "Long" thirty_words)];
     stderr := [] |}.

End Demo.

(** ** The content directory of a section *)

(** [get_content_path(section, path)], where [isdir] tells which paths
    are directories.  [path] defaults to [None]; the last line
    concatenates it to a string, which raises for [None]. *)
Definition get_content_path (isdir : string → bool) (section : string)
    (path : option string) : result string :=
  let concat :=
    match path with
    | Some p => Ok ("content/" +:+ p)
    | None =>
        Err (TypeError ("can only concatenate str (not "
                        +:+ String "034" "NoneType"
                        +:+ String "034" ") to str"))
    end in
  if match path with
     | Some p => negb (String.eqb p "") && isdir p
     | None => false
     end
  then concat
  else if String.eqb section "blog" && isdir "content/blog"
  then Ok "content/blog"
  else if String.eqb section "news" && isdir "content/news"
  then Ok "content/news"
  else concat.

(** Two sources with the same name up to the extension, in different
    directories, and a dated name without a slug. *)
Module Demo2.

Definition pair : world :=
  {| files := list_to_map
       [("content/blog/2021-06-15-post.md", "Some *text*");
        ("content/pages/2021-06-15-post.html", "<p>Other text</p>");
        ("content/blog/2021-06-15-.md", "text");
        ("content/blog/first-line.md", "{# /variables #}body")];
     stderr := [] |}.

End Demo2.

(** ** Notions for the slug and for the records of a build *)

(** [s] without its last character when that is a newline: where the
    [$] of the pattern can match before the end of the text. *)
Fixpoint chomp (s : string) : string :=
  match s with
  | "" => ""
  | String c s' =>
      match s' with
      | "" => if bool_decide (c = Re.newline) then "" else s
      | _ => String c (chomp s')
      end
  end.

Section SourceRecords.
Context `{Externals}.

(** [x] is a record that a page builder with the destination template
    [dst] makes of the source file [path]: what [read_content] returned
    for the file, with, under [dest_path], the destination rendered
    with parameters that this record has updated. *)
Definition record_of_source (dst path : string) (x : dict) : Prop :=
  ∃ w params context dst_path,
    read_content w path = Ok context
    ∧ render w dst (context ∪ params) = Ok dst_path
    ∧ x = <["dest_path" := dst_path]> context.

End SourceRecords.

(** The small instance with a custom parser registered: the module
    [add_parser] is there, and its [parse] puts a mark after the text. *)
Module DemoParser.

Definition parse (text filename : string) : string :=
  text +:+ "<!-- parsed -->".

Definition externals : Externals := {|
  date_format := "%b %d, %Y";
  strftime fmt y m dd := fmt;
  commonmark text := "<p>" +:+ text +:+ "</p>";
  add_parser := Some parse;
  jinja_render := Demo.render_placeholders;
  soup := string;
  tag := string;
  BeautifulSoup html := html;
  soup_find_id := Demo.find_id;
  tag_text t := t;
  glob := Demo.list_files;
|}.

End DemoParser.

(** A content directory whose one file has a newline before the dot
    of its name. *)
Module DemoNames.

Definition line_end_name : string :=
  "content/a" +:+ String Re.newline ".html".

Definition line_end_site : world :=
  {| files := {[ line_end_name := "text" ]}; stderr := [] |}.

End DemoNames.

(** ** More notions *)

(** The keys of a record once [make_pages] has attached its destination. *)
Definition page_keys : gset string := {["dest_path"]} ∪ content_keys.

(** The records of a list that bear the date [d], in their order. *)
Definition dated (d : string) (items : list dict) : list dict :=
  filter (λ x, date_ymd_of x = d) items.

(** The line that [make_pages] logs for one item, and the one that
    [make_list] logs. *)
Definition page_log_line (src_path dst_path : string) : string :=
  ("Rendering " +:+ src_path +:+ " => " +:+ dst_path +:+ " ...")
  +:+ String Re.newline "".

Definition list_log_line (dst_path : string) : string :=
  ("Rendering list => " +:+ dst_path +:+ " ...") +:+ String Re.newline "".

(** The state of the loop with respect to the world [w] it started in
    and the number [n] of paths it has gone through. *)
Definition pages_progress (w : world) (n : nat) (st : pages_state) : Prop :=
  dom (files w) ⊆ dom (files (ps_world st))
  ∧ (∃ lines, stderr (ps_world st) = stderr w ++ lines ∧ length lines = n)
  ∧ Forall (λ x, dom x = page_keys
                 ∧ ∃ p, x !! "dest_path" = Some p
                        ∧ p ∈ dom (files (ps_world st))) (ps_items st).

(* ================================================================== *)
(** * Part II: properties *)
(* ================================================================== *)

(** ** Strings *)

Module StrFacts.

Lemma app_nil_l (s : string) : "" +:+ s = s.
Proof. reflexivity. Qed.

Lemma app_cons (c : ascii) (s t : string) :
  String c s +:+ t = String c (s +:+ t).
Proof. reflexivity. Qed.

Lemma app_nil_r (s : string) : s +:+ "" = s.
Proof. induction s as [|c s IH]; [done|]. by rewrite app_cons, IH. Qed.

Lemma app_assoc (s t u : string) : (s +:+ t) +:+ u = s +:+ (t +:+ u).
Proof. induction s as [|c s IH]; [done|]. by rewrite !app_cons, IH. Qed.

Lemma length_app (s t : string) :
  String.length (s +:+ t) = String.length s + String.length t.
Proof. induction s as [|c s IH]; [done|]. rewrite app_cons. simpl. lia. Qed.

Lemma take_app (s t : string) : Str.take (String.length s) (s +:+ t) = s.
Proof. induction s as [|c s IH]; [by destruct t|]. rewrite app_cons. simpl. by rewrite IH. Qed.

Lemma drop_app (s t : string) : Str.drop (String.length s) (s +:+ t) = t.
Proof. induction s as [|c s IH]; [done|]. by rewrite app_cons. Qed.

Lemma take_all (s : string) : Str.take (String.length s) s = s.
Proof. rewrite <- (app_nil_r s) at 2. apply take_app. Qed.

Lemma take_drop (n : nat) (s : string) : Str.take n s +:+ Str.drop n s = s.
Proof.
  revert s. induction n as [|n IH]; intros [|c s]; try done.
  simpl. by rewrite app_cons, IH.
Qed.

Lemma length_take (n : nat) (s : string) :
  n ≤ String.length s → String.length (Str.take n s) = n.
Proof.
  revert s. induction n as [|n IH]; intros [|c s]; simpl; try lia.
  intros Hn. rewrite IH; lia.
Qed.

(** [sub] is a prefix of [s] exactly when [s] is [sub] followed by
    something. *)
Lemma prefix_app (sub t : string) : String.prefix sub (sub +:+ t) = true.
Proof.
  induction sub as [|c sub IH]; [by destruct t|].
  rewrite app_cons. simpl. by destruct (Ascii.ascii_dec c c).
Qed.

Lemma prefix_inv (sub s : string) :
  String.prefix sub s = true → ∃ t, s = sub +:+ t.
Proof.
  revert s. induction sub as [|c sub IH]; intros s Hp.
  - by exists s.
  - destruct s as [|a s]; [done|]. simpl in Hp.
    destruct (Ascii.ascii_dec c a) as [->|]; [|done].
    destruct (IH _ Hp) as [t ->]. by exists t.
Qed.

(** *** [find] *)

Lemma find_range (s sub : string) :
  Str.find s sub = (-1)%Z
  ∨ (0 ≤ Str.find s sub ≤ Z.of_nat (String.length s))%Z.
Proof.
  induction s as [|c s IH]; cbn [Str.find String.length].
  - destruct (String.prefix sub ""); [right; lia | by left].
  - destruct (String.prefix sub (String c s)); [right; lia|].
    destruct (Z.ltb_spec (Str.find s sub) 0); [by left | right; lia].
Qed.

(** A result of [find] that is not negative is the place of an
    occurrence. *)
Lemma find_occurs (s sub : string) (n : Z) :
  Str.find s sub = n → (0 ≤ n)%Z →
  ∃ pre post, occurs sub s pre post ∧ Z.of_nat (String.length pre) = n.
Proof.
  revert n. induction s as [|c s IH]; intros n; cbn [Str.find].
  - destruct (String.prefix sub "") eqn:Hp; [|lia].
    intros <- _. destruct (prefix_inv _ _ Hp) as [t Ht].
    by exists "", t.
  - destruct (String.prefix sub (String c s)) eqn:Hp.
    + intros <- _. destruct (prefix_inv _ _ Hp) as [t Ht].
      by exists "", t.
    + destruct (Z.ltb_spec (Str.find s sub) 0); [lia|].
      intros <- _.
      destruct (IH (Str.find s sub) eq_refl) as (pre & post & Ho & Hl);
        [lia|].
      exists (String c pre), post. split.
      * unfold occurs in *. by rewrite app_cons, <- Ho.
      * simpl. lia.
Qed.

Lemma find_prefix (s sub : string) :
  String.prefix sub s = true → Str.find s sub = 0%Z.
Proof. intros Hp. destruct s; cbn [Str.find]; by rewrite Hp. Qed.

(** [find] is never to the right of an occurrence. *)
Lemma find_le (s sub pre post : string) :
  occurs sub s pre post →
  (0 ≤ Str.find s sub ≤ Z.of_nat (String.length pre))%Z.
Proof.
  unfold occurs. revert s. induction pre as [|c pre IH]; intros s ->.
  - rewrite app_nil_l, find_prefix by apply prefix_app. simpl. lia.
  - rewrite app_cons. simpl String.length.
    specialize (IH _ eq_refl). cbn [Str.find].
    destruct (String.prefix sub _); [lia|].
    destruct (Z.ltb_spec (Str.find (pre +:+ sub +:+ post) sub) 0); lia.
Qed.

(** The first occurrence is where [find] points, and without any
    occurrence [find] is [-1]. *)
Lemma find_first (s sub pre post : string) :
  first_occurrence sub s pre post →
  Str.find s sub = Z.of_nat (String.length pre).
Proof.
  intros [Ho Hmin]. pose proof (find_le _ _ _ _ Ho) as Hle.
  destruct (find_occurs s sub _ eq_refl) as (pre' & post' & Ho' & Hl');
    [lia|].
  specialize (Hmin _ _ Ho'). lia.
Qed.

Lemma find_absent (s sub : string) :
  (∀ pre post, ¬ occurs sub s pre post) → Str.find s sub = (-1)%Z.
Proof.
  intros Hno. destruct (find_range s sub) as [|Hr]; [done|].
  destruct (find_occurs s sub _ eq_refl) as (pre & post & Ho & _); [lia|].
  by destruct (Hno _ _ Ho).
Qed.

(** *** Slices *)

Lemma clamp_nonneg (n : nat) (i : Z) :
  (0 ≤ i ≤ Z.of_nat n)%Z → Str.clamp n i = Z.to_nat i.
Proof.
  intros Hi. unfold Str.clamp.
  destruct (Z.ltb_spec i 0); [lia|]. f_equal. lia.
Qed.

Lemma slice_to (s t : string) :
  Str.slice (s +:+ t) None (Some (Z.of_nat (String.length s))) = s.
Proof.
  unfold Str.slice. simpl.
  rewrite clamp_nonneg by (rewrite length_app; lia).
  rewrite Nat2Z.id, Nat.sub_0_r. apply take_app.
Qed.

Lemma slice_from (s t : string) :
  Str.slice (s +:+ t) (Some (Z.of_nat (String.length s))) None = t.
Proof.
  unfold Str.slice. simpl.
  rewrite clamp_nonneg by (rewrite length_app; lia).
  rewrite Nat2Z.id, drop_app, length_app.
  replace (_ + _ - _) with (String.length t) by lia. apply take_all.
Qed.

End StrFacts.

(** ** The front-matter splitter *)

(** C2, as stated, fails where the boundary is at position 0: the text
    is returned whole, boundary included, not the text after it. *)
Lemma separate_boundary_at_start_counterexample :
  separate_content_and_variables (default_boundary +:+ "body") default_boundary
  = ("", "{# /variables #}body")
  ∧ separate_content_and_variables (default_boundary +:+ "body")
      default_boundary ≠ ("", "body").
Proof. split; [reflexivity | discriminate]. Qed.

(** C2 (amended): for every boundary, [separate_content_and_variables]
    - returns empty variables and the whole text, boundary included,
      when the text starts with the boundary;
    - returns the trimmed text before and the trimmed text after the
      first occurrence of the boundary when that occurrence is at a
      position greater than 0;
    - returns empty variables and the whole text when the boundary does
      not occur. *)
Theorem separate_content_and_variables_spec (boundary : string) :
  (∀ body,
     separate_content_and_variables (boundary +:+ body) boundary
     = ("", boundary +:+ body))
  ∧ (∀ text pre post,
       first_occurrence boundary text pre post → pre ≠ "" →
       separate_content_and_variables text boundary
       = (Str.strip pre, Str.strip post))
  ∧ (∀ text,
       (∀ pre post, ¬ occurs boundary text pre post) →
       separate_content_and_variables text boundary = ("", text)).
Proof.
  unfold separate_content_and_variables. repeat split.
  - intros body.
    by rewrite StrFacts.find_prefix by apply StrFacts.prefix_app.
  - intros text pre post Hfirst Hpre.
    rewrite (StrFacts.find_first _ _ _ _ Hfirst).
    destruct Hfirst as [-> _].
    destruct (Z.gtb_spec (Z.of_nat (String.length pre)) 0) as [_|Hle].
    + rewrite StrFacts.slice_to. unfold Str.len.
      rewrite <- Nat2Z.inj_add, <- StrFacts.length_app.
      by rewrite <- StrFacts.app_assoc, StrFacts.slice_from.
    + destruct pre; [done | simpl in Hle; lia].
  - intros text Hno. by rewrite StrFacts.find_absent.
Qed.

Lemma separate_content_and_variables_spec_witness :
  first_occurrence default_boundary "vars{# /variables #}body" "vars" "body"
  ∧ "vars" ≠ ""
  ∧ separate_content_and_variables "vars{# /variables #}body" default_boundary
    = ("vars", "body").
Proof.
  assert (Hfirst : first_occurrence default_boundary
                     "vars{# /variables #}body" "vars" "body").
  { split; [reflexivity|].
    intros [|? [|? [|? [|? pre']]]] post' Ho; simpl; try lia;
      unfold occurs in Ho; vm_compute in Ho; discriminate Ho. }
  split; [exact Hfirst|]. split; [discriminate|].
  exact (proj1 (proj2 (separate_content_and_variables_spec default_boundary))
           _ "vars" "body" Hfirst ltac:(discriminate)).
Defined.

(** The third equation of the specification, on its own text. *)
Example separate_no_boundary :
  separate_content_and_variables "no boundary here" default_boundary
  = ("", "no boundary here").
Proof. reflexivity. Qed.

(** ** Words and truncation *)

Module SplitFacts.
Import StrFacts.

Lemma split_space (gap s : string) :
  all_space gap = true → Str.split (gap +:+ s) = Str.split s.
Proof.
  induction gap as [|c gap IH]; [done|].
  cbn [all_space]. intros [Hc Hgap]%andb_prop.
  rewrite app_cons. cbn [Str.split]. rewrite Hc. auto.
Qed.

Lemma starts_word_space (gap s : string) :
  all_space gap = true → gap ≠ "" → Str.starts_word (gap +:+ s) = false.
Proof.
  destruct gap as [|c gap]; [done|].
  cbn [all_space]. intros [Hc _]%andb_prop _.
  rewrite app_cons. cbn. by rewrite Hc.
Qed.

Lemma starts_word_all_space (s : string) :
  all_space s = true → Str.starts_word s = false.
Proof.
  destruct s as [|c s]; [done|].
  cbn. intros [Hc _]%andb_prop. by rewrite Hc.
Qed.

Lemma starts_word_word (word s : string) :
  is_word word = true → Str.starts_word (word +:+ s) = true.
Proof.
  destruct word as [|c word]; [done|].
  unfold is_word. cbn. by intros [Hc _]%andb_prop.
Qed.

(** A word followed by something that does not continue it is the
    first word of the text. *)
Lemma split_word (word s : string) :
  is_word word = true → Str.starts_word s = false →
  Str.split (word +:+ s) = word :: Str.split s.
Proof.
  induction word as [|c word IH]; [done|].
  unfold is_word. cbn [String.eqb negb andb no_space].
  intros [Hc Hword]%andb_prop Hs. apply negb_true_iff in Hc.
  rewrite app_cons. cbn [Str.split]. rewrite Hc.
  destruct word as [|a word].
  - rewrite app_nil_l, Hs. done.
  - rewrite starts_word_word, IH; auto.
Qed.

Lemma split_all_space (s : string) : all_space s = true → Str.split s = [].
Proof.
  intros Hs. rewrite <- (app_nil_r s). by rewrite split_space.
Qed.

(** [split] recovers the words of a text, whatever white space lies
    between and around them. *)
Lemma split_spaced (gaps_words : list (string * string)) (trail : string) :
  well_spaced gaps_words → all_space trail = true →
  Str.split (spaced gaps_words +:+ trail) = gaps_words.*2.
Proof.
  intros [Hok Hgaps] Htrail.
  induction gaps_words as [|[gap word] l IH].
  - by apply split_all_space.
  - apply Forall_cons in Hok as [[Hgap Hword] Hok]. simpl in *.
    rewrite !app_assoc, split_space, split_word; auto.
    + f_equal. apply IH; [done|]. destruct l; [done|].
      by apply Forall_cons in Hgaps as [_ ?].
    + destruct l as [|[gap' word'] l'].
      * by apply starts_word_all_space.
      * apply Forall_cons in Hok as [[Hgap' _] _].
        apply Forall_cons in Hgaps as [Hne _]. simpl in *.
        rewrite app_assoc. by apply starts_word_space.
Qed.

Lemma take_clamp {A : Type} (l : list A) (n : nat) :
  take (Str.clamp (length l) (Z.of_nat n)) l = take n l.
Proof.
  unfold Str.clamp. destruct (Z.ltb_spec (Z.of_nat n) 0); [lia|].
  destruct (le_lt_dec n (length l)).
  - do 2 f_equal. lia.
  - rewrite !take_ge; [done | lia | lia].
Qed.

(** [truncate] keeps the first 25 words, joined by single spaces. *)
Lemma truncate_25 (text : string) :
  truncate text 25 = Str.join " " (take 25 (Str.split text)).
Proof. unfold truncate. by rewrite (take_clamp _ 25). Qed.

End SplitFacts.

(** ** Title and summary *)

Section TitleAndSummary.
Context `{Externals}.

(** C6: when the rendered file has an element with the id [title] and
    one with the id [post], [get_title_and_summary] returns the text
    of the former as it is and, as the summary, the first 25 words of
    the text of the latter joined by single spaces; the words are the
    maximal runs without white space, whatever white space separates
    or surrounds them, and nothing is appended. *)
Theorem get_title_and_summary_spec (w : world) (path html : string)
    (title post : tag) :
  files w !! path = Some html →
  soup_find_id (BeautifulSoup html) "title" = Some title →
  soup_find_id (BeautifulSoup html) "post" = Some post →
  get_title_and_summary w path
  = Ok (tag_text title,
        Str.join " " (take 25 (Str.split (tag_text post))))
  ∧ ∀ gaps_words trail,
      well_spaced gaps_words → all_space trail = true →
      tag_text post = spaced gaps_words +:+ trail →
      get_title_and_summary w path
      = Ok (tag_text title, Str.join " " (take 25 gaps_words.*2)).
Proof.
  intros Hfile Htitle Hpost.
  assert (get_title_and_summary w path
          = Ok (tag_text title,
                Str.join " " (take 25 (Str.split (tag_text post)))))
    as Hrun.
  { unfold get_title_and_summary, fread. rewrite Hfile. cbn.
    rewrite Htitle. cbn. rewrite Hpost. cbn.
    by rewrite SplitFacts.truncate_25. }
  split; [done|].
  intros gaps_words trail Hwell Htrail Htext.
  by rewrite Hrun, Htext, SplitFacts.split_spaced.
Qed.

(** C7 (amended): when the rendered file lacks the element with the id
    [title] or the one with the id [post], [get_title_and_summary]
    raises, and what it raises is the [AttributeError] of the
    attribute access on [None]: one and the same exception for every
    path and every document, with no reference to the file. *)
Theorem get_title_and_summary_missing (w : world) (path html : string) :
  files w !! path = Some html →
  soup_find_id (BeautifulSoup html) "title" = None
  ∨ soup_find_id (BeautifulSoup html) "post" = None →
  get_title_and_summary w path
  = Err (AttributeError "'NoneType' object has no attribute 'text'").
Proof.
  intros Hfile Hmissing.
  unfold get_title_and_summary, fread. rewrite Hfile. cbn.
  destruct (soup_find_id (BeautifulSoup html) "title") as [t|]; [|done].
  destruct Hmissing as [|Hpost]; [done|]. cbn. by rewrite Hpost.
Qed.

End TitleAndSummary.

(** ** File names *)

Module PathFacts.
Import StrFacts.

Lemma rfind_absent (c : ascii) (s : string) :
  Str.contains c s = false → Str.rfind s (String c "") = (-1)%Z.
Proof.
  induction s as [|a s IH]; [done|].
  cbn [Str.contains Str.rfind]. intros [Ha Hs]%orb_false_elim.
  rewrite (IH Hs). cbn. apply bool_decide_eq_false in Ha.
  destruct (Ascii.ascii_dec c a); [by subst | done].
Qed.

Lemma rfind_last (c : ascii) (pre s : string) :
  Str.contains c s = false →
  Str.rfind (pre +:+ String c s) (String c "")
  = Z.of_nat (String.length pre).
Proof.
  intros Hs. induction pre as [|a pre IH].
  - rewrite app_nil_l. cbn [Str.rfind]. rewrite (rfind_absent _ _ Hs).
    pose proof (prefix_app (String c "") s) as Hp.
    rewrite app_cons, app_nil_l in Hp. by rewrite Hp.
  - rewrite app_cons. cbn [Str.rfind]. rewrite IH.
    destruct (Z.ltb_spec (Z.of_nat (String.length pre)) 0); [lia|].
    simpl String.length. lia.
Qed.

(** The base name of a name without a slash is the name itself, and
    a directory in front of it, whatever it is, is dropped. *)
Lemma basename_name (name : string) :
  Str.contains "/" name = false → Path.basename name = name.
Proof.
  intros Hname. unfold Path.basename. rewrite (rfind_absent _ _ Hname).
  exact (slice_from "" name).
Qed.

Lemma basename_join (dir name : string) :
  Str.contains "/" name = false →
  Path.basename (dir +:+ "/" +:+ name) = name.
Proof.
  intros Hname. unfold Path.basename.
  change (dir +:+ "/" +:+ name) with (dir +:+ String "/" name).
  rewrite (rfind_last "/" dir name Hname).
  replace (dir +:+ String "/" name) with ((dir +:+ "/") +:+ name)
    by (by rewrite app_assoc).
  replace (Z.of_nat (String.length dir) + 1)%Z
    with (Z.of_nat (String.length (dir +:+ "/")))
    by (rewrite length_app; simpl; lia).
  apply slice_from.
Qed.

(** The part of a name before its first dot. *)
Lemma first_segment_dotted (stem rest : string) :
  Str.contains "." stem = false →
  hd "" (Str.split_char "." (stem +:+ "." +:+ rest)) = stem.
Proof.
  induction stem as [|a stem IH]; [done|].
  cbn [Str.contains]. intros [Ha Hstem]%orb_false_elim.
  apply bool_decide_eq_false in Ha.
  rewrite app_cons. cbn [Str.split_char].
  destruct (decide (a = "."%char)); [done|]. specialize (IH Hstem).
  destruct (Str.split_char "." (stem +:+ "." +:+ rest)); simpl in *;
    by subst.
Qed.

Lemma first_segment_plain (stem : string) :
  Str.contains "." stem = false →
  hd "" (Str.split_char "." stem) = stem.
Proof.
  induction stem as [|a stem IH]; [done|].
  cbn [Str.contains]. intros [Ha Hstem]%orb_false_elim.
  apply bool_decide_eq_false in Ha. cbn [Str.split_char].
  destruct (decide (a = "."%char)); [done|]. specialize (IH Hstem).
  destruct (Str.split_char "." stem); simpl in *; by subst.
Qed.

Lemma first_segment_dot (rest : string) :
  hd "" (Str.split_char "." ("." +:+ rest)) = "".
Proof. reflexivity. Qed.

End PathFacts.

(** ** The date and slug pattern *)

Module ReFacts.
Import StrFacts.

Lemma dot_plus_end_line (s : string) :
  s ≠ "" → Str.contains Re.newline s = false →
  Re.dot_plus_end s = Some s.
Proof.
  induction s as [|c s IH]; [done|]. intros _.
  cbn [Str.contains Re.dot_plus_end]. intros [Hc Hs]%orb_false_elim.
  rewrite Hc. destruct s as [|a s]; [done|]. by rewrite IH.
Qed.

Lemma match_seq_app (ps qs : list (ascii → bool)) (tok s : string) :
  Re.match_seq ps tok = Some "" →
  Re.match_seq (ps ++ qs) (tok +:+ s) = Re.match_seq qs s.
Proof.
  revert tok. induction ps as [|p ps IH]; intros tok.
  - destruct tok; [done|]. cbn. congruence.
  - destruct tok as [|c tok]; [done|]. rewrite app_cons. cbn.
    destruct (p c); [apply IH | done].
Qed.

Lemma match_seq_length (ps : list (ascii → bool)) (tok : string) :
  Re.match_seq ps tok = Some "" → String.length tok = length ps.
Proof.
  revert tok. induction ps as [|p ps IH]; intros tok.
  - destruct tok; [done|]. cbn. congruence.
  - destruct tok as [|c tok]; [done|]. cbn.
    destruct (p c); [|done]. intros ?%IH. by f_equal.
Qed.

Lemma match_seq_inv (ps qs : list (ascii → bool)) (s rest : string) :
  Re.match_seq (ps ++ qs) s = Some rest →
  ∃ tok t, s = tok +:+ t ∧ Re.match_seq ps tok = Some ""
           ∧ Re.match_seq qs t = Some rest.
Proof.
  revert s. induction ps as [|p ps IH]; intros s.
  - intros Hq. by exists "", s.
  - destruct s as [|c s]; [done|]. cbn.
    destruct (p c) eqn:Hp; [|done].
    intros (tok & t & -> & Htok & Ht)%IH.
    exists (String c tok), t. cbn. by rewrite Hp.
Qed.

(** The optional part of the pattern matches exactly the texts that
    start with a date token and a dash. *)
Lemma date_dash_match (tok rest : string) :
  is_date_token tok = true →
  Re.match_seq (Re.date_token ++ [Re.dash]) (tok +:+ "-" +:+ rest)
  = Some rest.
Proof.
  intros Htok%bool_decide_eq_true. by rewrite (match_seq_app _ _ _ _ Htok).
Qed.

Lemma date_dash_inv (s rest : string) :
  Re.match_seq (Re.date_token ++ [Re.dash]) s = Some rest →
  ∃ tok, s = tok +:+ "-" +:+ rest ∧ is_date_token tok = true.
Proof.
  intros (tok & t & -> & Htok & Ht)%match_seq_inv.
  exists tok. split; [|by apply bool_decide_eq_true].
  destruct t as [|c t]; [done|]. cbn in Ht. unfold Re.dash in Ht.
  case_bool_decide; [|done]. by simplify_eq.
Qed.

Lemma date_token_length (tok : string) :
  is_date_token tok = true → String.length tok = 10.
Proof. intros Htok%bool_decide_eq_true. by apply match_seq_length in Htok. Qed.

(** A dated name: the date token is the first group and what follows
    the dash is the second. *)
Lemma search_dated (tok slug : string) :
  is_date_token tok = true → slug ≠ "" →
  Str.contains Re.newline slug = false →
  Re.search (tok +:+ "-" +:+ slug)
  = Some {| Re.group1 := Some tok; Re.group2 := slug |}.
Proof.
  intros Htok Hslug Hline. unfold Re.search.
  rewrite date_dash_match, dot_plus_end_line by done.
  pose proof (date_token_length _ Htok) as Hlen.
  by rewrite <- Hlen, take_app.
Qed.

(** A name without a date prefix: there is no first group and the
    whole name is the second. *)
Lemma search_undated (s : string) :
  ¬ has_date_prefix s → s ≠ "" → Str.contains Re.newline s = false →
  Re.search s = Some {| Re.group1 := None; Re.group2 := s |}.
Proof.
  intros Hno Hs Hline. unfold Re.search.
  rewrite dot_plus_end_line by done.
  destruct (Re.match_seq _ s) as [rest|] eqn:Hm; [|done].
  destruct (date_dash_inv _ _ Hm) as (tok & -> & Htok).
  destruct Hno. by exists tok, rest.
Qed.

(** Nothing matches the empty name: the slug needs a character. *)
Lemma search_empty : Re.search "" = None.
Proof. reflexivity. Qed.

End ReFacts.

(** ** Dates *)

Module DateFacts.

Lemma isdigit_cases (c : ascii) :
  Str.isdigit c = true →
  c ∈ ["0"; "1"; "2"; "3"; "4"; "5"; "6"; "7"; "8"; "9"]%char.
Proof.
  destruct c as [[] [] [] [] [] [] [] []]; vm_compute; intros Hc;
    try discriminate Hc; set_solver.
Qed.

(** Case analysis on a character known to be a digit. *)
Ltac digit_cases H :=
  apply isdigit_cases in H;
  repeat (apply elem_of_cons in H as [->|H]);
  [.. | by apply elem_of_nil in H].

Lemma digit_range (c : ascii) :
  Str.isdigit c = true → (0 ≤ Date.digit c ≤ 9)%Z.
Proof. intros Hc. digit_cases Hc; vm_compute; split; discriminate. Qed.

Lemma expect_dash_digit (c : ascii) (s : string) :
  Str.isdigit c = true → Date.expect_dash (String c s) = None.
Proof. intros Hc. by digit_cases Hc. Qed.

(** Two digits read as a month: the number they denote when it is
    one of 1..12; otherwise the first digit alone, if it is not 0. *)
Lemma parse_m_digits (a b : ascii) (s : string) :
  Str.isdigit a = true → Str.isdigit b = true →
  Date.parse_m (String a (String b s))
  = let v := (10 * Date.digit a + Date.digit b)%Z in
    if ((1 <=? v) && (v <=? 12))%Z then Some (v, s)
    else if (1 <=? Date.digit a)%Z then Some (Date.digit a, String b s)
    else None.
Proof. intros Ha Hb. digit_cases Ha; digit_cases Hb; reflexivity. Qed.

(** And as a day of the month, likewise with 1..31. *)
Lemma parse_d_digits (a b : ascii) (s : string) :
  Str.isdigit a = true → Str.isdigit b = true →
  Date.parse_d (String a (String b s))
  = let v := (10 * Date.digit a + Date.digit b)%Z in
    if ((1 <=? v) && (v <=? 31))%Z then Some (v, s)
    else if (1 <=? Date.digit a)%Z then Some (Date.digit a, String b s)
    else None.
Proof. intros Ha Hb. digit_cases Ha; digit_cases Hb; reflexivity. Qed.

Lemma days_in_month_range (y m : Z) :
  (28 ≤ Date.days_in_month y m ≤ 31)%Z.
Proof.
  unfold Date.days_in_month.
  repeat match goal with |- context [if ?b then _ else _] => destruct b end;
    lia.
Qed.

(** The characters of a date token. *)
Lemma date_token_inv (tok : string) :
  is_date_token tok = true →
  ∃ y1 y2 y3 y4 m1 m2 d1 d2,
    tok = String y1 (String y2 (String y3 (String y4 (String "-"
            (String m1 (String m2 (String "-"
              (String d1 (String d2 "")))))))))
    ∧ Forall (λ c, Str.isdigit c = true) [y1; y2; y3; y4; m1; m2; d1; d2].
Proof.
  intros Htok%bool_decide_eq_true.
  destruct tok as [|y1 [|y2 [|y3 [|y4 [|h1 [|m1 [|m2 [|h2 [|d1 [|d2 tok]]]]]]]]]];
    cbn in Htok; unfold Re.d, Re.dash in Htok;
    repeat match type of Htok with
           | (if ?b then _ else _) = _ =>
               let E := fresh "E" in destruct b eqn:E; [|discriminate Htok]
           end;
    try discriminate Htok.
  repeat match goal with
         | E : bool_decide _ = true |- _ => apply bool_decide_eq_true in E
         end.
  destruct tok; [|discriminate Htok]. subst.
  exists y1, y2, y3, y4, m1, m2, d1, d2. split; [done|].
  repeat constructor; done.
Qed.

(** On a date token [strptime] succeeds exactly for the days of the
    calendar, and raises [ValueError] for the others. *)
Lemma strptime_token (tok : string) :
  is_date_token tok = true →
  (is_calendar_date tok = true → Date.strptime tok = Ok (token_fields tok))
  ∧ (is_calendar_date tok = false →
     ∃ msg, Date.strptime tok = Err (ValueError msg)).
Proof.
  intros (y1 & y2 & y3 & y4 & m1 & m2 & d1 & d2 & -> & Hd)%date_token_inv.
  repeat match goal with
         | H : Forall _ (_ :: _) |- _ => apply Forall_cons in H as [? H]
         end.
  unfold Date.strptime, Date.match_format, is_calendar_date, token_fields.
  cbn [Date.parse_Y]. repeat match goal with H : Str.isdigit _ = true |- _ => rewrite H end.
  set (Y := (1000 * Date.digit y1 + 100 * Date.digit y2
             + 10 * Date.digit y3 + Date.digit y4)%Z).
  cbn [andb mbind option_bind Date.expect_dash].
  set (M := (10 * Date.digit m1 + Date.digit m2)%Z).
  set (D := (10 * Date.digit d1 + Date.digit d2)%Z).
  pose proof (days_in_month_range Y M) as Hdim.
  rewrite (bool_decide_eq_true_2 _ (eq_refl "-"%char)).
  cbn [mbind option_bind]. rewrite parse_m_digits by done.
  cbv zeta. fold M.
  destruct (Z.leb_spec 1 M), (Z.leb_spec M 12); cbn [andb];
    try (destruct (1 <=? Date.digit m1)%Z;
         cbn [mbind option_bind]; rewrite ?expect_dash_digit by done;
         cbn [mbind option_bind];
         (split; intros Hc;
          [destruct (1 <=? Y)%Z; cbn in Hc; discriminate Hc | eauto])).
  cbn [mbind option_bind Date.expect_dash].
  rewrite (bool_decide_eq_true_2 _ (eq_refl "-"%char)).
  cbn [mbind option_bind]. rewrite parse_d_digits by done.
  cbv zeta. fold D.
  repeat match goal with
         | |- context [(?a <=? ?b)%Z] => destruct (Z.leb_spec a b)
         end;
    cbn;
    repeat match goal with
           | |- context [(?a <? ?b)%Z] => destruct (Z.ltb_spec a b)
           end;
    split; intros Hc; try discriminate Hc; try lia; eauto.
Qed.

Lemma strptime_epoch : Date.strptime "1970-01-01" = Ok (1970, 1, 1)%Z.
Proof. reflexivity. Qed.

End DateFacts.

(** ** The content loader *)

Section ContentLoader.
Context `{Externals}.

(** [read_content] in one piece: it raises for a file that cannot be
    read, for a name that the pattern does not match and for a date
    that [strptime] rejects, and returns the record otherwise. *)
Lemma read_content_unfold (w : world) (filename : string) :
  read_content w filename
  = match files w !! filename with
    | None => Err (FileNotFoundError filename)
    | Some text =>
        match Re.search (hd "" (Str.split_char "." (Path.basename filename))) with
        | None =>
            Err (AttributeError "'NoneType' object has no attribute 'group'")
        | Some mo =>
            match Date.strptime (Str.or_else (Re.group1 mo) "1970-01-01") with
            | Err e => Err e
            | Ok (y, m, dd) => Ok (record_of filename text mo y m dd)
            end
        end
    end.
Proof.
  unfold read_content, fread.
  destruct (files w !! filename) as [text|]; [|done]. cbn.
  destruct (Re.search _) as [mo|]; [|done]. cbn.
  unfold format_date.
  destruct (Date.strptime _) as [[[y m] dd]|e]; [|done]. cbn.
  unfold record_of, parsed_text, assembled_text.
  by destruct (separate_content_and_variables text default_boundary).
Qed.

Lemma record_of_lookup (filename text : string) (mo : Re.match_object)
    (y m dd : Z) :
  let c := record_of filename text mo y m dd in
  c !! "date_ymd" = Some (Str.or_else (Re.group1 mo) "1970-01-01")
  ∧ c !! "slug" = Some (Re.group2 mo)
  ∧ c !! "content" = Some (parsed_text filename text)
  ∧ dom c = content_keys.
Proof.
  unfold record_of. repeat split; by simplify_map_eq.
Qed.

(** What is known of a record that [read_content] returned. *)
Lemma read_content_Ok_inv (w : world) (filename : string) (c : dict) :
  read_content w filename = Ok c →
  ∃ text mo y m dd,
    files w !! filename = Some text
    ∧ Re.search (hd "" (Str.split_char "." (Path.basename filename))) = Some mo
    ∧ Date.strptime (Str.or_else (Re.group1 mo) "1970-01-01") = Ok (y, m, dd)
    ∧ c = record_of filename text mo y m dd.
Proof.
  rewrite read_content_unfold.
  destruct (files w !! filename) as [text|]; [|done].
  destruct (Re.search _) as [mo|]; [|done].
  destruct (Date.strptime _) as [[[y m] dd]|e] eqn:Hdate; [|done].
  intros [= <-]. by exists text, mo, y, m, dd.
Qed.

(** Every record has the same five keys. *)
Lemma read_content_dom (w : world) (filename : string) (c : dict) :
  read_content w filename = Ok c → dom c = content_keys.
Proof.
  intros (text & mo & y & m & dd & _ & _ & _ & ->)%read_content_Ok_inv.
  apply record_of_lookup.
Qed.

End ContentLoader.

Module SlugFacts.
Import StrFacts.

Lemma contains_app (c : ascii) (s t : string) :
  Str.contains c (s +:+ t) = Str.contains c s || Str.contains c t.
Proof.
  induction s as [|a s IH]; [done|].
  rewrite app_cons. cbn. by rewrite IH, orb_assoc.
Qed.

Lemma dot_plus_end_inv (s m : string) :
  Str.contains Re.newline s = false → Re.dot_plus_end s = Some m → m = s.
Proof.
  intros Hline Hm. destruct s as [|c s]; [done|].
  rewrite ReFacts.dot_plus_end_line in Hm by done. congruence.
Qed.

(** Taking the date prefix off a text that has one. *)
Lemma remove_date_prefix_dated (tok rest : string) :
  is_date_token tok = true →
  remove_date_prefix (tok +:+ "-" +:+ rest)
  = if String.eqb rest "" then tok +:+ "-" +:+ rest else rest.
Proof.
  intros Htok. pose proof (ReFacts.date_token_length _ Htok) as Hlen.
  unfold remove_date_prefix.
  replace 11 with (String.length (tok +:+ "-"))
    by (rewrite length_app, Hlen; done).
  rewrite <- (app_assoc tok "-" rest), drop_app, app_assoc.
  rewrite <- Hlen, take_app, drop_app, Htok.
  change ("-" +:+ rest) with (String "-" rest). cbn.
  by destruct rest.
Qed.

Lemma remove_date_prefix_undated (s : string) :
  Re.match_seq (Re.date_token ++ [Re.dash]) s = None →
  remove_date_prefix s = s.
Proof.
  intros Hno. unfold remove_date_prefix.
  destruct (is_date_token (Str.take 10 s)) eqn:Htok; [|done].
  destruct (String.prefix "-" (Str.drop 10 s)) eqn:Hdash; [|done].
  apply prefix_inv in Hdash as [t Ht].
  rewrite <- (take_drop 10 s), Ht, ReFacts.date_dash_match in Hno by done.
  discriminate Hno.
Qed.

(** The second group of the pattern is the name without its date
    prefix. *)
Lemma search_group2 (s : string) (mo : Re.match_object) :
  Str.contains Re.newline s = false →
  Re.search s = Some mo → Re.group2 mo = remove_date_prefix s.
Proof.
  intros Hline. unfold Re.search.
  destruct (Re.match_seq _ s) as [rest|] eqn:Hm.
  - destruct (ReFacts.date_dash_inv _ _ Hm) as (tok & -> & Htok).
    rewrite remove_date_prefix_dated by done.
    pose proof Hline as Hrest. rewrite !contains_app in Hrest.
    apply orb_false_elim in Hrest as [_ [_ Hrest]%orb_false_elim].
    destruct rest as [|a rest].
    + cbn [Re.dot_plus_end String.eqb].
      destruct (Re.dot_plus_end _) as [m|] eqn:Hdot; [|done].
      intros [= <-]. cbn. by apply dot_plus_end_inv in Hdot.
    + rewrite ReFacts.dot_plus_end_line by done. by intros [= <-].
  - rewrite remove_date_prefix_undated by done.
    destruct (Re.dot_plus_end s) as [m|] eqn:Hdot; [|done].
    intros [= <-]. cbn. by apply dot_plus_end_inv in Hdot.
Qed.

(** *** A newline at the end of the name *)

Lemma chomp_cons (c : ascii) (s : string) :
  s ≠ "" → chomp (String c s) = String c (chomp s).
Proof. by destruct s. Qed.

Lemma chomp_app (a b : string) : b ≠ "" → chomp (a +:+ b) = a +:+ chomp b.
Proof.
  intros Hb. induction a as [|c a IH]; [done|].
  rewrite !app_cons, chomp_cons, IH; [done|].
  destruct a; [by rewrite app_nil_l | by rewrite app_cons].
Qed.

Lemma chomp_prefix (s : string) : ∃ t, s = chomp s +:+ t.
Proof.
  induction s as [|c s [t IH]]; [by exists ""|].
  destruct s as [|a s].
  - cbn. case_bool_decide; [by exists (String c "") | by exists ""].
  - rewrite chomp_cons by done. exists t. by rewrite app_cons, <- IH.
Qed.

Lemma chomp_line (s : string) :
  Str.contains Re.newline s = false → chomp s = s.
Proof.
  induction s as [|c s IH]; [done|]. cbn [Str.contains].
  intros [Hc Hs]%orb_false_elim. destruct s as [|a s].
  - cbn. by rewrite Hc.
  - by rewrite chomp_cons, IH.
Qed.

(** What [(.+)$] matches, when it matches, is the text without its
    final newline; and it matches whenever that is a non-empty line. *)
Lemma dot_plus_end_chomp (s m : string) :
  Re.dot_plus_end s = Some m →
  m = chomp s ∧ m ≠ "" ∧ Str.contains Re.newline m = false.
Proof.
  revert m. induction s as [|c s IH]; intros m; [done|].
  cbn [Re.dot_plus_end]. case_bool_decide as Hc; [done|].
  destruct (Re.dot_plus_end s) as [m'|] eqn:Hs.
  - intros [= <-]. destruct (IH m' eq_refl) as (-> & Hne & Hline).
    assert (s ≠ "") by (by destruct s).
    rewrite chomp_cons by done. repeat split; [done|].
    cbn. by rewrite bool_decide_eq_false_2.
  - destruct s as [|a [|b s]]; cbn [Re.at_end]; try done.
    + intros [= <-]. cbn. by rewrite !bool_decide_eq_false_2.
    + case_bool_decide as Ha; [|done]. intros [= <-]. subst a. cbn.
      rewrite bool_decide_eq_true_2 by done.
      by rewrite bool_decide_eq_false_2.
Qed.

Lemma dot_plus_end_complete (s : string) :
  chomp s ≠ "" → Str.contains Re.newline (chomp s) = false →
  Re.dot_plus_end s = Some (chomp s).
Proof.
  induction s as [|c s IH]; [done|]. destruct s as [|a s].
  - cbn. by case_bool_decide as Hc.
  - rewrite chomp_cons by done. intros _. cbn [Str.contains].
    intros [Hc Hline]%orb_false_elim.
    remember (String a s) as t eqn:Ht.
    cbn [Re.dot_plus_end]. rewrite Hc.
    destruct (decide (chomp t = "")) as [Hempty|Hne]; [|by rewrite IH].
    rewrite Hempty. subst t.
    destruct s as [|b s]; [|by rewrite chomp_cons in Hempty].
    cbn in Hempty. case_bool_decide as Ha; [|done]. subst a.
    reflexivity.
Qed.

Lemma match_seq_extend (ps : list (ascii → bool)) (a t r : string) :
  Re.match_seq ps a = Some r → Re.match_seq ps (a +:+ t) = Some (r +:+ t).
Proof.
  revert a. induction ps as [|p ps IH]; intros a.
  - destruct a; cbn; by intros [= <-].
  - destruct a as [|c a]; [done|]. rewrite app_cons. cbn.
    destruct (p c); [apply IH | done].
Qed.

(** The second group of the pattern, in general: the name without its
    final newline, and without the date prefix of that. *)
Lemma search_group2_chomp (s : string) (mo : Re.match_object) :
  Re.search s = Some mo → Re.group2 mo = remove_date_prefix (chomp s).
Proof.
  unfold Re.search.
  destruct (Re.match_seq _ s) as [rest|] eqn:Hm.
  - destruct (ReFacts.date_dash_inv _ _ Hm) as (tok & -> & Htok).
    assert (remove_date_prefix (tok +:+ "-") = tok +:+ "-") as Hbare.
    { change (tok +:+ "-") with (tok +:+ "-" +:+ "").
      by rewrite remove_date_prefix_dated. }
    assert (chomp (tok +:+ "-") = tok +:+ "-") as Hdash
      by (by rewrite chomp_app).
    destruct (Re.dot_plus_end rest) as [m|] eqn:Hrest.
    + intros [= <-]. cbn [Re.group2].
      destruct (dot_plus_end_chomp _ _ Hrest) as (-> & Hne & _).
      assert (rest ≠ "") by (by destruct rest).
      rewrite <- app_assoc, chomp_app, app_assoc by done.
      rewrite remove_date_prefix_dated by done.
      by destruct (chomp rest).
    + intros (m & Hwhole & ->)%fmap_Some. cbn [Re.group2].
      destruct (dot_plus_end_chomp _ _ Hwhole) as (-> & _ & Hline).
      destruct rest as [|a rest].
      * change (tok +:+ "-" +:+ "") with (tok +:+ "-").
        by rewrite Hdash, Hbare.
      * rewrite <- app_assoc, chomp_app, app_assoc in Hline |- * by done.
        rewrite !contains_app in Hline.
        apply orb_false_elim in Hline as [_ [_ Hline]%orb_false_elim].
        destruct (decide (chomp (String a rest) = "")) as [->|Hne].
        -- change (tok +:+ "-" +:+ "") with (tok +:+ "-"). by rewrite Hbare.
        -- by rewrite dot_plus_end_complete in Hrest.
  - intros (m & Hwhole & ->)%fmap_Some. cbn [Re.group2].
    destruct (dot_plus_end_chomp _ _ Hwhole) as (-> & _ & _).
    rewrite remove_date_prefix_undated; [done|].
    destruct (Re.match_seq _ (chomp s)) as [r|] eqn:Hc; [|done].
    destruct (chomp_prefix s) as [t Ht].
    apply (match_seq_extend _ _ t) in Hc. rewrite <- Ht in Hc. congruence.
Qed.

End SlugFacts.

Section ContentLoaderClaims.
Context `{Externals}.

(** C1 (amended): for a readable file whose base name is
    [stem.ext], the stem free of dots and newlines,
    - when the stem is a date token, a dash and a non-empty slug,
      [read_content] returns [date_ymd] equal to the token and [slug]
      equal to what follows the dash provided the token is a day of
      the calendar, and raises [ValueError] when it is not;
    - when the stem is not empty and has no date token and dash in
      front, [read_content] returns [date_ymd] equal to [1970-01-01]
      and [slug] equal to the whole stem. *)
Theorem read_content_date_and_slug (w : world)
    (filename stem ext text : string) :
  files w !! filename = Some text →
  Path.basename filename = stem +:+ "." +:+ ext →
  Str.contains "." stem = false →
  Str.contains Re.newline stem = false →
  (∀ tok slug,
     stem = tok +:+ "-" +:+ slug → is_date_token tok = true → slug ≠ "" →
     (is_calendar_date tok = true →
      ∃ c, read_content w filename = Ok c
           ∧ c !! "date_ymd" = Some tok ∧ c !! "slug" = Some slug)
     ∧ (is_calendar_date tok = false →
        ∃ msg, read_content w filename = Err (ValueError msg)))
  ∧ (¬ has_date_prefix stem → stem ≠ "" →
     ∃ c, read_content w filename = Ok c
          ∧ c !! "date_ymd" = Some "1970-01-01" ∧ c !! "slug" = Some stem).
Proof.
  intros Hfile Hbase Hdot Hline.
  rewrite read_content_unfold, Hfile, Hbase,
    PathFacts.first_segment_dotted by done.
  split.
  - intros tok slug -> Htok Hslug.
    rewrite !SlugFacts.contains_app in Hline.
    apply orb_false_elim in Hline as [_ [_ Hline]%orb_false_elim].
    rewrite ReFacts.search_dated by done. cbn [Re.group1].
    assert (Str.or_else (Some tok) "1970-01-01" = tok) as Hor.
    { pose proof (ReFacts.date_token_length _ Htok). by destruct tok. }
    rewrite Hor.
    destruct (DateFacts.strptime_token _ Htok) as [Hgood Hbad]. split.
    + intros Hcal. rewrite (Hgood Hcal).
      destruct (token_fields tok) as [[y m] dd].
      eexists. split; [done|].
      pose proof (record_of_lookup filename text
                    {| Re.group1 := Some tok; Re.group2 := slug |} y m dd)
        as (Hymd & Hsl & _).
      cbn [Re.group1 Re.group2] in *. by rewrite Hor in Hymd.
    + intros Hcal. destruct (Hbad Hcal) as [msg ->]. by exists msg.
  - intros Hno Hstem.
    rewrite ReFacts.search_undated by done. cbn [Re.group1 Str.or_else].
    rewrite DateFacts.strptime_epoch.
    eexists. split; [done|].
    pose proof (record_of_lookup filename text
                  {| Re.group1 := None; Re.group2 := stem |} 1970 1 1)
      as (Hymd & Hsl & _).
    by cbn [Re.group1 Re.group2 Str.or_else] in *.
Qed.

(** C8 (amended): the slug of a record is the part of the base name
    before its FIRST dot, less the newline at its end if it ends in one,
    and without the leading date token and dash when something follows
    them; whatever comes after the first dot, further dots included, is
    dropped.  For a name without newlines this is the part before the
    first dot without its date prefix. *)
Theorem read_content_slug_first_segment (w : world)
    (filename stem : string) (c : dict) :
  Path.basename filename = stem
  ∨ (∃ rest, Path.basename filename = stem +:+ "." +:+ rest) →
  Str.contains "." stem = false →
  read_content w filename = Ok c →
  c !! "slug" = Some (remove_date_prefix (chomp stem))
  ∧ (Str.contains Re.newline stem = false →
     c !! "slug" = Some (remove_date_prefix stem)).
Proof.
  intros Hbase Hdot
    (text & mo & y & m & dd & _ & Hsearch & _ & ->)%read_content_Ok_inv.
  assert (hd "" (Str.split_char "." (Path.basename filename)) = stem)
    as Hseg.
  { destruct Hbase as [->|[rest ->]];
      auto using PathFacts.first_segment_plain,
                 PathFacts.first_segment_dotted. }
  rewrite Hseg in Hsearch.
  pose proof (record_of_lookup filename text mo y m dd) as (_ & Hslug & _).
  cbv zeta in Hslug.
  rewrite (SlugFacts.search_group2_chomp _ _ Hsearch) in Hslug.
  split; [done|]. intros Hline. by rewrite <- (SlugFacts.chomp_line stem).
Qed.

(** C10: for a file whose base name starts with a dot, [read_content]
    returns no record: it raises.  When the file can be read at all,
    the pattern does not match the empty text before the dot and the
    access to the groups of [None] raises [AttributeError]. *)
Theorem read_content_dotfile (w : world) (filename rest : string) :
  Path.basename filename = "." +:+ rest →
  (∀ c, read_content w filename ≠ Ok c)
  ∧ (∀ text,
       files w !! filename = Some text →
       read_content w filename
       = Err (AttributeError "'NoneType' object has no attribute 'group'")).
Proof.
  intros Hbase.
  rewrite read_content_unfold, Hbase, PathFacts.first_segment_dot,
    ReFacts.search_empty.
  split.
  - intros c. by destruct (files w !! filename).
  - by intros text ->.
Qed.

(** C5 (amended): the content of the record that [read_content]
    returns for a readable file.  When the name ends in one of [.md],
    [.mkd], [.mkdn], [.mdown], [.markdown], the assembled text is the
    front-matter variables, the header include, the converted body and
    the footer include, in this order; otherwise it is the text of the
    file.  With no custom parser registered the content is the
    assembled text; with one registered it is what the parser makes of
    the assembled text and the file name. *)
Theorem read_content_content (w : world) (filename text : string)
    (c : dict) :
  files w !! filename = Some text →
  read_content w filename = Ok c →
  ∃ assembled,
    (if Str.endswith_any filename
          [".md"; ".mkd"; ".mkdn"; ".mdown"; ".markdown"]
     then assembled
          = (separate_content_and_variables text default_boundary).1
            +:+ "{% include 'md_header.html' %}"
            +:+ commonmark
                  (separate_content_and_variables text default_boundary).2
            +:+ "{% include 'md_footer.html' %}"
     else assembled = text)
    ∧ c !! "content"
      = Some (match add_parser with
              | Some parse => parse assembled filename
              | None => assembled
              end)
    ∧ (add_parser = None → c !! "content" = Some assembled).
Proof.
  intros Hfile
    (text' & mo & y & m & dd & Hfile' & _ & _ & ->)%read_content_Ok_inv.
  assert (text' = text) as -> by congruence.
  exists (assembled_text filename text).
  pose proof (record_of_lookup filename text mo y m dd)
    as (_ & _ & Hcontent & _).
  cbv zeta in Hcontent. unfold parsed_text in Hcontent.
  split; [|split; [done|]].
  - unfold assembled_text, markdown_extensions, md_header, md_footer.
    by destruct (Str.endswith_any _ _).
  - intros Hnone. by rewrite Hnone in Hcontent.
Qed.

End ContentLoaderClaims.

(** ** Sorting by date *)

Module SortFacts.

Lemma ltb_le (a b : string) : String.ltb a b = true → String.le a b.
Proof.
  unfold String.ltb, String.le, String.leb.
  by destruct (String.compare a b).
Qed.

Lemma not_ltb_le (a b : string) : String.ltb a b = false → String.le b a.
Proof.
  unfold String.ltb, String.le, String.leb.
  rewrite (String.compare_antisym a b).
  by destruct (String.compare b a).
Qed.

Lemma insert_desc_perm (x : string * dict) (l : list (string * dict)) :
  insert_desc x l ≡ₚ x :: l.
Proof.
  induction l as [|y l IH]; [done|]. cbn.
  destruct (String.ltb x.1 y.1); [|done].
  by rewrite IH, Permutation_swap.
Qed.

Lemma insert_desc_sorted (x : string * dict) (l : list (string * dict)) :
  StronglySorted key_desc l → StronglySorted key_desc (insert_desc x l).
Proof.
  induction l as [|y l IH]; intros Hl; cbn.
  - by repeat constructor.
  - apply StronglySorted_cons in Hl as [Hy Hl].
    destruct (String.ltb x.1 y.1) eqn:Hlt.
    + apply StronglySorted_cons. split; [|auto].
      rewrite insert_desc_perm. constructor; [|done].
      by apply ltb_le.
    + apply not_ltb_le in Hlt.
      apply StronglySorted_cons. split.
      * constructor; [done|].
        eapply Forall_impl; [exact Hy|]. intros z Hz.
        unfold key_desc in *. by etrans.
      * by apply StronglySorted_cons.
Qed.

Lemma sort_desc_perm (l : list (string * dict)) : sort_desc l ≡ₚ l.
Proof.
  induction l as [|x l IH]; [done|]. cbn.
  by rewrite insert_desc_perm, IH.
Qed.

Lemma sort_desc_sorted (l : list (string * dict)) :
  StronglySorted key_desc (sort_desc l).
Proof.
  induction l as [|x l IH]; [constructor|]. by apply insert_desc_sorted.
Qed.

(** A sorted list stays sorted under a map that respects the order on
    the elements of the list. *)
Lemma StronglySorted_fmap_Forall {A B : Type} (P : A → Prop)
    (R1 : relation A) (R2 : relation B) (f : A → B) (l : list A) :
  (∀ x y, P x → P y → R1 x y → R2 (f x) (f y)) →
  Forall P l → StronglySorted R1 l → StronglySorted R2 (f <$> l).
Proof.
  intros HR HP Hl. induction Hl as [|x l Hl IH Hx]; [constructor|].
  apply Forall_cons in HP as [Px HP]. csimpl.
  constructor; [auto|]. rewrite Forall_fmap.
  rewrite Forall_forall in Hx, HP. apply Forall_forall. intros y Hy.
  cbn. auto.
Qed.

Lemma mapM_Ok_inv {A B : Type} (f : A → result B) (l : list A)
    (ks : list B) :
  mapM f l = Ok ks → Forall2 (λ x k, f x = Ok k) l ks.
Proof.
  revert ks. induction l as [|x l IH]; intros ks; cbn.
  - intros [= <-]. constructor.
  - destruct (f x) as [k|e] eqn:Hfx; [|done]. cbn.
    destruct (mapM f l) as [ks'|e]; [|done]. cbn.
    intros [= <-]. constructor; auto.
Qed.

Lemma mapM_Ok {A B : Type} (f : A → result B) (l : list A) :
  Forall (λ x, ∃ k, f x = Ok k) l → ∃ ks, mapM f l = Ok ks.
Proof.
  induction 1 as [|x l [k Hk] _ [ks IH]]; [by exists []|].
  exists (k :: ks). cbn. by rewrite Hk, IH.
Qed.

(** What [sorted(items, key=..., reverse=True)] returns: the items in
    another order, each with its key, by descending keys. *)
Lemma sorted_by_date_ymd_reverse_spec (items sorted : list dict) :
  sorted_by_date_ymd_reverse items = Ok sorted →
  sorted ≡ₚ items
  ∧ Forall (λ x, is_Some (x !! "date_ymd")) sorted
  ∧ StronglySorted date_desc sorted.
Proof.
  unfold sorted_by_date_ymd_reverse.
  destruct (mapM _ items) as [keys|e] eqn:Hkeys; [|done]. cbn.
  intros [= <-]. apply mapM_Ok_inv in Hkeys.
  pose proof (Forall2_length _ _ _ Hkeys) as Hlen.
  assert (Forall (λ p : string * dict, p.2 !! "date_ymd" = Some p.1)
            (zip keys items)) as Hpairs.
  { clear Hlen. induction Hkeys as [|x k l ks Hk _ IH]; [constructor|].
    constructor; [|done]. cbn. unfold getitem in Hk.
    by destruct (x !! "date_ymd"); simplify_eq. }
  rewrite <- (sort_desc_perm (zip keys items)) in Hpairs.
  split; [|split].
  - rewrite sort_desc_perm. by rewrite snd_zip by lia.
  - rewrite Forall_fmap. eapply Forall_impl; [exact Hpairs|].
    intros [k x] Hx. cbn in *. by rewrite Hx.
  - eapply StronglySorted_fmap_Forall;
      [|exact Hpairs|apply sort_desc_sorted].
    intros [k1 x1] [k2 x2] H1 H2 Hle.
    unfold date_desc, date_ymd_of, key_desc in *. cbn in *.
    by rewrite H1, H2.
Qed.

Lemma sorted_by_date_ymd_reverse_Ok (items : list dict) :
  Forall (λ x, is_Some (x !! "date_ymd")) items →
  ∃ sorted, sorted_by_date_ymd_reverse items = Ok sorted.
Proof.
  intros Hitems. unfold sorted_by_date_ymd_reverse.
  destruct (mapM_Ok (λ x, getitem x "date_ymd") items) as [keys ->].
  - eapply Forall_impl; [exact Hitems|]. intros x [k Hk].
    exists k. unfold getitem. by rewrite Hk.
  - by eexists.
Qed.

End SortFacts.

(** ** The page builder *)

Section PageBuilder.
Context `{Externals}.

(** A property of the loop state that every turn preserves holds at
    the end of the loop. *)
Lemma for_each_invariant {S A : Type} (body : S → A → result S)
    (P : S → Prop) (l : list A) (st st' : S) :
  (∀ s a s', P s → body s a = Ok s' → P s') →
  P st → for_each body st l = Ok st' → P st'.
Proof.
  intros Hbody. revert st. induction l as [|a l IH]; intros st HP; cbn.
  - by intros [= <-].
  - destruct (body st a) as [s|e] eqn:Hs; [|done]. cbn. eauto.
Qed.

(** What one turn of the loop of [make_pages] does to its variables. *)
Lemma make_pages_body_Ok_inv (dst : string) (st st' : pages_state)
    (src_path : string) :
  make_pages_body dst st src_path = Ok st' →
  ∃ context dst_path,
    read_content (ps_world st) src_path = Ok context
    ∧ ps_params st' = context ∪ ps_params st
    ∧ ps_items st' = ps_items st ++ [<["dest_path" := dst_path]> context].
Proof.
  unfold make_pages_body. intros Hrun.
  destruct (read_content _ _) as [context|] eqn:Hread; [|done].
  cbn in Hrun.
  destruct (render _ dst _) as [dst_path|]; [|done]. cbn in Hrun.
  destruct (getitem context "content") as [content|]; [|done].
  cbn in Hrun.
  destruct (render _ content _) as [output|]; [|done]. cbn in Hrun.
  destruct (fwrite _ _ _) as [w'|]; [|done]. cbn in Hrun.
  injection Hrun as <-. by exists context, dst_path.
Qed.

Lemma make_pages_loop_items (dst : string) (paths : list string)
    (st st' : pages_state) :
  for_each (make_pages_body dst) st paths = Ok st' →
  length (ps_items st') = length (ps_items st) + length paths.
Proof.
  revert st. induction paths as [|p paths IH]; intros st; cbn.
  - intros [= <-]. lia.
  - destruct (make_pages_body dst st p) as [s|e] eqn:Hs; [|done]. cbn.
    intros ->%IH.
    apply make_pages_body_Ok_inv in Hs as (c & d & _ & _ & ->).
    rewrite length_app. cbn. lia.
Qed.

Lemma make_pages_loop_dated (dst : string) (paths : list string)
    (st st' : pages_state) :
  Forall (λ x, is_Some (x !! "date_ymd")) (ps_items st) →
  for_each (make_pages_body dst) st paths = Ok st' →
  Forall (λ x, is_Some (x !! "date_ymd")) (ps_items st').
Proof.
  apply (for_each_invariant _
           (λ s, Forall (λ x, is_Some (x !! "date_ymd")) (ps_items s))).
  intros s p s' Hs (c & d & Hread & _ & ->)%make_pages_body_Ok_inv.
  apply Forall_app. split; [done|]. constructor; [|constructor].
  apply read_content_Ok_inv in Hread
    as (text & mo & y & m & dd & _ & _ & _ & ->).
  rewrite lookup_insert_ne by done.
  pose proof (record_of_lookup p text mo y m dd) as (Hp & _).
  cbv zeta in Hp. by rewrite Hp.
Qed.

(** The final sort never raises: [make_pages] returns as soon as its
    loop runs to the end. *)
Lemma make_pages_returns (w : world) (src dst : string)
    (layout : option string) (params : dict) (st : pages_state) :
  for_each (make_pages_body dst)
    {| ps_params := params; ps_items := []; ps_world := w |}
    (glob (files w) src) = Ok st →
  ∃ items, make_pages w src dst layout params = Ok (items, ps_world st).
Proof.
  intros Hloop. unfold make_pages. rewrite Hloop. cbn.
  destruct (SortFacts.sorted_by_date_ymd_reverse_Ok (ps_items st))
    as [items ->]; [|by eexists].
  eapply make_pages_loop_dated; [|exact Hloop]. constructor.
Qed.

(** One turn of the loop appends a record of its source file. *)
Lemma make_pages_body_record (dst : string) (st st' : pages_state)
    (src_path : string) :
  make_pages_body dst st src_path = Ok st' →
  ∃ x, record_of_source dst src_path x
       ∧ ps_items st' = ps_items st ++ [x].
Proof.
  unfold make_pages_body. intros Hrun.
  destruct (read_content _ _) as [context|] eqn:Hread; [|done].
  cbn in Hrun.
  destruct (render _ dst _) as [dst_path|] eqn:Hdst; [|done]. cbn in Hrun.
  destruct (getitem context "content") as [content|]; [|done].
  cbn in Hrun.
  destruct (render _ content _) as [output|]; [|done]. cbn in Hrun.
  destruct (fwrite _ _ _) as [w'|]; [|done]. cbn in Hrun.
  injection Hrun as <-. eexists. split; [|done].
  by exists (ps_world st), (ps_params st), context, dst_path.
Qed.

(** The loop appends one record for each path, in the order of the
    paths. *)
Lemma make_pages_loop_records (dst : string) (paths : list string)
    (st st' : pages_state) :
  for_each (make_pages_body dst) st paths = Ok st' →
  ∃ records, Forall2 (record_of_source dst) paths records
             ∧ ps_items st' = ps_items st ++ records.
Proof.
  revert st. induction paths as [|p paths IH]; intros st; cbn.
  - intros [= <-]. exists []. split; [constructor|by rewrite app_nil_r].
  - destruct (make_pages_body dst st p) as [s|e] eqn:Hs; [|done]. cbn.
    intros (records & Hrecords & ->)%IH.
    apply make_pages_body_record in Hs as (x & Hx & ->).
    exists (x :: records). split; [by constructor|].
    by rewrite <- List.app_assoc.
Qed.

(** C3: the list that [make_pages] returns is sorted by [date_ymd] in
    descending order, whatever the order in which [glob] lists the
    source files; every record of it has a [date_ymd]; there is one
    record for each listed path; and the list is a rearrangement of the
    records made of the listed files, one of each file. *)
Theorem make_pages_sorted (w w' : world) (src dst : string)
    (layout : option string) (params : dict) (items : list dict) :
  make_pages w src dst layout params = Ok (items, w') →
  StronglySorted date_desc items
  ∧ Forall (λ x, is_Some (x !! "date_ymd")) items
  ∧ length items = length (glob (files w) src)
  ∧ ∃ records,
      Forall2 (record_of_source dst) (glob (files w) src) records
      ∧ items ≡ₚ records.
Proof.
  unfold make_pages. intros Hrun.
  destruct (for_each _ _ _) as [st|] eqn:Hloop; [|done]. cbn in Hrun.
  destruct (sorted_by_date_ymd_reverse _) as [sorted|] eqn:Hsort; [|done].
  cbn in Hrun. injection Hrun as <- <-.
  apply SortFacts.sorted_by_date_ymd_reverse_spec in Hsort
    as (Hperm & Hdated & Hsorted).
  repeat split; [done..| |].
  - rewrite Hperm. by apply make_pages_loop_items in Hloop.
  - apply make_pages_loop_records in Hloop as (records & Hrecords & Hitems).
    exists records. split; [done|]. by rewrite Hperm, Hitems.
Qed.

End PageBuilder.

(** ** The list builder *)

Section ListBuilder.
Context `{Externals}.

Lemma bind_Ok_r {A : Type} (m : result (list A)) :
  (fragments ← m; Ok ([] ++ fragments)) = m.
Proof. by destruct m. Qed.

(** The loop under a limit, from the index [k] on: it renders the
    posts in order and stops after the [limit - k]-th of them, but not
    before the first. *)
Lemma make_list_loop_limited (w : world) (item_layout : string)
    (l : Z) (params : dict) (k : Z) (posts : list dict)
    (items : list string) :
  make_list_loop w item_layout (Some l) params k posts items
  = (fragments ← mapM (render_item w item_layout params)
                   (take (Z.to_nat (Z.max 1 (l - k))) posts);
     Ok (items ++ fragments)).
Proof.
  revert k items. induction posts as [|post posts IH]; intros k items.
  - rewrite take_nil. cbn. by rewrite app_nil_r.
  - destruct (Z.to_nat (Z.max 1 (l - k))) as [|n] eqn:Hn; [lia|].
    cbn [make_list_loop take mapM].
    destruct (render_item w item_layout params post) as [item|e]; [|done].
    cbn. destruct (Z.geb_spec (k + 1) l) as [Hstop|Hmore].
    + replace n with 0 by lia. rewrite take_0. done.
    + rewrite IH. replace (Z.to_nat (Z.max 1 (l - (k + 1)))) with n by lia.
      destruct (mapM _ (take n posts)) as [fragments|e]; [|done].
      cbn. by rewrite <- app_assoc.
Qed.

(** The loop without a limit renders every post. *)
Lemma make_list_loop_unlimited (w : world) (item_layout : string)
    (params : dict) (k : Z) (posts : list dict) (items : list string) :
  make_list_loop w item_layout None params k posts items
  = (fragments ← mapM (render_item w item_layout params) posts;
     Ok (items ++ fragments)).
Proof.
  revert k items. induction posts as [|post posts IH]; intros k items.
  - cbn. by rewrite app_nil_r.
  - cbn [make_list_loop mapM].
    destruct (render_item w item_layout params post) as [item|e]; [|done].
    cbn. rewrite IH.
    destruct (mapM _ posts) as [fragments|e]; [|done].
    cbn. by rewrite <- app_assoc.
Qed.

(** The fragments of [make_list]: one for each of the first
    [rendered_count limit N] of the [N] posts, each rendered from the
    mapping that the builder was given and that post alone. *)
Lemma make_list_loop_spec (w : world) (item_layout : string)
    (limit : option Z) (params : dict) (posts : list dict) :
  make_list_loop w item_layout limit params 0 posts []
  = mapM (render_item w item_layout params)
      (take (rendered_count limit (length posts)) posts).
Proof.
  destruct limit as [l|]; cbn [rendered_count].
  - rewrite make_list_loop_limited, bind_Ok_r, Z.sub_0_r.
    destruct (le_lt_dec (length posts) (Z.to_nat (Z.max 1 l))).
    + rewrite Nat.min_l by done. by rewrite !take_ge by lia.
    + rewrite Nat.min_r by lia. done.
  - rewrite make_list_loop_unlimited, bind_Ok_r. by rewrite take_ge.
Qed.

(** With a limit of at least 1 the loop renders exactly
    [min(limit, N)] fragments, when it returns. *)
Lemma make_list_loop_count (w : world) (item_layout : string)
    (l : Z) (params : dict) (posts : list dict) (items : list string) :
  (1 ≤ l)%Z →
  make_list_loop w item_layout (Some l) params 0 posts [] = Ok items →
  length items = Nat.min (length posts) (Z.to_nat l).
Proof.
  intros Hl. rewrite make_list_loop_spec.
  intros Hitems%SortFacts.mapM_Ok_inv%Forall2_length.
  rewrite <- Hitems, length_take. cbn. lia.
Qed.

End ListBuilder.

(** ** Per-item parameter mappings *)

Section PerItemMapping.
Context `{Externals}.

(** Merging a record over a mapping that already holds another record
    with the same keys leaves nothing of that other record. *)
Lemma union_overwrite (context previous params : dict) :
  dom previous = dom context →
  context ∪ (previous ∪ params) = context ∪ params.
Proof.
  intros Hdom. apply map_eq. intros key. rewrite !lookup_union.
  destruct (context !! key) as [v|] eqn:Hkey.
  { by destruct (previous !! key), (params !! key). }
  apply not_elem_of_dom in Hkey. rewrite <- Hdom in Hkey.
  apply not_elem_of_dom in Hkey. rewrite Hkey.
  by destruct (params !! key).
Qed.

Lemma make_pages_body_agree (dst : string) (params0 : dict)
    (st st' : pages_state) (src_path : string) :
  agree params0 st st' →
  match make_pages_body dst st src_path,
        make_pages_body_copying dst params0 st' src_path with
  | Ok s, Ok s' => agree params0 s s'
  | Err e, Err e' => e = e'
  | _, _ => False
  end.
Proof.
  intros (Hitems & Hworld & Hparams).
  unfold make_pages_body, make_pages_body_copying.
  rewrite <- Hworld, <- Hitems.
  destruct (read_content _ _) as [context|] eqn:Hread; [|done]. cbn.
  assert (context ∪ ps_params st = context ∪ params0) as ->.
  { destruct Hparams as [->|(previous & Hdom & ->)]; [done|].
    apply union_overwrite.
    by rewrite Hdom, (read_content_dom _ _ _ Hread). }
  destruct (render _ dst _) as [dst_path|]; [|done]. cbn.
  destruct (getitem context "content") as [content|]; [|done]. cbn.
  destruct (render _ content _) as [output|]; [|done]. cbn.
  destruct (fwrite _ _ _) as [w'|]; [|done]. cbn.
  repeat split. right. exists context.
  by rewrite (read_content_dom _ _ _ Hread).
Qed.

Lemma make_pages_loop_agree (dst : string) (params0 : dict)
    (paths : list string) (st st' : pages_state) :
  agree params0 st st' →
  match for_each (make_pages_body dst) st paths,
        for_each (make_pages_body_copying dst params0) st' paths with
  | Ok s, Ok s' => agree params0 s s'
  | Err e, Err e' => e = e'
  | _, _ => False
  end.
Proof.
  revert st st'. induction paths as [|p paths IH]; intros st st' Hst; cbn.
  - done.
  - pose proof (make_pages_body_agree dst params0 st st' p Hst) as Hbody.
    destruct (make_pages_body dst st p) as [s|e],
             (make_pages_body_copying dst params0 st' p) as [s'|e'];
      cbn; try done.
    by apply IH.
Qed.

(** C9 (amended).  [make_list] makes the mapping of each item on a
    fresh copy: every fragment is rendered from the mapping that the
    builder was given and the post itself.  [make_pages] updates one
    mapping in place, item after item; since all records have the
    same five keys, the fields of the previous item are all
    overwritten, and [make_pages] returns what the copy-then-extend
    loop returns, in which each item extends a fresh copy of the
    initial mapping. *)
Theorem builders_per_item_mapping (w : world) (src dst : string)
    (layout : option string) (params : dict) (posts : list dict)
    (item_layout : string) (limit : option Z) :
  make_pages w src dst layout params
  = make_pages_copying w src dst layout params
  ∧ make_list_loop w item_layout limit params 0 posts []
    = mapM (λ post,
              let item_params := post ∪ params in
              dest_path ← getitem item_params "dest_path";
              '(title, summary) ← get_title_and_summary w dest_path;
              render w item_layout
                (<["summary" := summary]>
                   (<["title" := title]> item_params)))
        (take (rendered_count limit (length posts)) posts).
Proof.
  split; [|apply make_list_loop_spec].
  unfold make_pages, make_pages_copying.
  pose proof (make_pages_loop_agree dst params (glob (files w) src)
                {| ps_params := params; ps_items := []; ps_world := w |}
                {| ps_params := params; ps_items := []; ps_world := w |})
    as Hloop.
  destruct (for_each (make_pages_body dst) _ _) as [s|e],
           (for_each (make_pages_body_copying dst params) _ _) as [s'|e'];
    cbn.
  - destruct Hloop as (-> & -> & _); [|done]. repeat split. by left.
  - destruct Hloop. repeat split. by left.
  - destruct Hloop. repeat split. by left.
  - f_equal. apply Hloop. repeat split. by left.
Qed.

End PerItemMapping.

(** ** Concrete runs *)

Module DemoRuns.
Import Demo.

(** C1, as stated, fails on a date token that is not a day of the
    calendar: the token matches the pattern, the file is there, and
    [read_content] raises instead of returning a record. *)
Lemma read_content_month_13_counterexample :
  is_date_token "2020-13-01" = true
  ∧ files site !! "content/blog/2020-13-01-post.md" = Some "text"
  ∧ read_content site "content/blog/2020-13-01-post.md"
    = Err (ValueError
             "time data '2020-13-01' does not match format '%Y-%m-%d'").
Proof. repeat split; vm_compute; reflexivity. Qed.

Lemma read_content_date_and_slug_witness :
  ∃ c, read_content blog "content/blog/2020-01-01-first.html" = Ok c
       ∧ c !! "date_ymd" = Some "2020-01-01" ∧ c !! "slug" = Some "first".
Proof.
  refine (proj1 (proj1 (read_content_date_and_slug blog
            "content/blog/2020-01-01-first.html" "2020-01-01-first" "html"
            (page "First" "one two three") _ _ _ _)
          "2020-01-01" "first" _ _ _) _);
    solve [vm_compute; reflexivity | discriminate].
Defined.

(** C8, as stated, fails on a base name with a dot in the slug part:
    the slug of [my.note.md] is [my], not [my.note]. *)
Lemma read_content_dotted_slug_counterexample :
  (c ← read_content site "content/my.note.md"; getitem c "slug") = Ok "my"
  ∧ (c ← read_content site "content/my.note.md"; getitem c "slug")
    ≠ Ok "my.note".
Proof. split; [vm_compute; reflexivity | vm_compute; discriminate]. Qed.

(** C8 on [my.note.md], whose slug is [my], and on a name with a
    newline before its dot, whose slug is the name before the newline. *)
Lemma read_content_slug_first_segment_witness :
  (∃ c, read_content site "content/my.note.md" = Ok c
        ∧ c !! "slug" = Some "my")
  ∧ (∃ c, read_content DemoNames.line_end_site DemoNames.line_end_name
          = Ok c
          ∧ c !! "slug" = Some "a").
Proof.
  assert (returns (read_content site "content/my.note.md") = true) as Hok
    by (vm_compute; reflexivity).
  assert (returns (read_content DemoNames.line_end_site
                     DemoNames.line_end_name) = true) as Hok'
    by (vm_compute; reflexivity).
  split.
  - destruct (read_content site "content/my.note.md") as [c|e] eqn:Hrun;
      [|discriminate Hok].
    exists c. split; [reflexivity|].
    exact (proj1 (read_content_slug_first_segment site "content/my.note.md"
                    "my" c (or_intror (ex_intro _ "note.md" eq_refl))
                    eq_refl Hrun)).
  - destruct (read_content DemoNames.line_end_site
                DemoNames.line_end_name) as [c|e] eqn:Hrun;
      [|discriminate Hok'].
    exists c. split; [reflexivity|].
    exact (proj1 (read_content_slug_first_segment DemoNames.line_end_site
                    DemoNames.line_end_name (String "a" (String Re.newline ""))
                    c (or_intror (ex_intro _ "html" eq_refl)) eq_refl Hrun)).
Defined.

Lemma read_content_dotfile_witness :
  Path.basename "content/.hidden" = "." +:+ "hidden"
  ∧ read_content site "content/.hidden"
    = Err (AttributeError "'NoneType' object has no attribute 'group'").
Proof.
  split; [reflexivity|].
  exact (proj2 (read_content_dotfile site "content/.hidden" "hidden" eq_refl)
           "text" eq_refl).
Defined.

(** C5, as stated, fails when a custom parser is registered: the
    content of a file that is not Markdown is then what the parser
    returns, not the text of the file. *)
Lemma read_content_custom_parser_counterexample :
  files blog !! "content/blog/2019-12-31-zeroth.html"
  = Some (page "Zeroth" "six")
  ∧ (c ← @read_content DemoParser.externals blog
           "content/blog/2019-12-31-zeroth.html";
     getitem c "content")
    = Ok (page "Zeroth" "six" +:+ "<!-- parsed -->")
  ∧ (c ← @read_content DemoParser.externals blog
           "content/blog/2019-12-31-zeroth.html";
     getitem c "content")
    ≠ Ok (page "Zeroth" "six").
Proof.
  split; [vm_compute; reflexivity|].
  split; [vm_compute; reflexivity | vm_compute; discriminate].
Qed.

(** C5 with no parser registered, on a Markdown file and on a file
    that is not Markdown. *)
Lemma read_content_content_witness :
  (∃ c, read_content site "content/my.note.md" = Ok c
        ∧ c !! "content"
          = Some "vars{% include 'md_header.html' %}<p>body</p>{% include 'md_footer.html' %}")
  ∧ (∃ c, read_content blog "content/blog/2019-12-31-zeroth.html" = Ok c
          ∧ c !! "content" = Some (page "Zeroth" "six")).
Proof.
  assert (returns (read_content site "content/my.note.md") = true) as Hok
    by (vm_compute; reflexivity).
  assert (returns (read_content blog "content/blog/2019-12-31-zeroth.html")
          = true) as Hok' by (vm_compute; reflexivity).
  split.
  - destruct (read_content site "content/my.note.md") as [c|e] eqn:Hrun;
      [|discriminate Hok].
    exists c. split; [reflexivity|].
    destruct (read_content_content site "content/my.note.md"
                "vars{# /variables #}body" c eq_refl Hrun)
      as (assembled & Hassembled & _ & Hcontent).
    vm_compute in Hassembled.
    exact (eq_trans (Hcontent eq_refl) (f_equal Some Hassembled)).
  - destruct (read_content blog "content/blog/2019-12-31-zeroth.html")
      as [c|e] eqn:Hrun; [|discriminate Hok'].
    exists c. split; [reflexivity|].
    destruct (read_content_content blog
                "content/blog/2019-12-31-zeroth.html"
                (page "Zeroth" "six") c eq_refl Hrun)
      as (assembled & Hassembled & _ & Hcontent).
    cbn in Hassembled.
    exact (eq_trans (Hcontent eq_refl) (f_equal Some Hassembled)).
Defined.

Lemma get_title_and_summary_spec_witness :
  files site !! "_site/blog/long/index.html" = Some (page "Long" thirty_words)
  ∧ get_title_and_summary site "_site/blog/long/index.html"
    = Ok ("Long",
          "w01 w02 w03 w04 w05 w06 w07 w08 w09 w10 w11 w12 w13 w14 w15 w16 w17 w18 w19 w20 w21 w22 w23 w24 w25").
Proof.
  split; [reflexivity|].
  exact (proj1 (get_title_and_summary_spec site "_site/blog/long/index.html"
                  (page "Long" thirty_words) "Long" thirty_words
                  eq_refl eq_refl eq_refl)).
Defined.

(** C7, as stated, fails in its second half: the exception raised for
    a page without a title element does not mention the file. *)
Lemma get_title_and_summary_anonymous_counterexample :
  get_title_and_summary site "_site/blog/broken/index.html"
  = Err (AttributeError "'NoneType' object has no attribute 'text'")
  ∧ mentions (AttributeError "'NoneType' object has no attribute 'text'")
      "_site/blog/broken/index.html" = false.
Proof. split; vm_compute; reflexivity. Qed.

Lemma get_title_and_summary_missing_witness :
  files site !! "_site/blog/broken/index.html"
  = Some "<div id=post>text</div>"
  ∧ soup_find_id (BeautifulSoup "<div id=post>text</div>") "title" = None
  ∧ get_title_and_summary site "_site/blog/broken/index.html"
    = Err (AttributeError "'NoneType' object has no attribute 'text'").
Proof.
  split; [reflexivity|]. split; [reflexivity|].
  exact (get_title_and_summary_missing site "_site/blog/broken/index.html"
           "<div id=post>text</div>" eq_refl (or_introl eq_refl)).
Defined.

(** C3 on the three dated posts of the demo, which [glob] lists in
    the order 2019-12-31, 2021-06-15, 2020-01-01: the records come back
    in the order 2021-06-15, 2020-01-01, 2019-12-31, and they are the
    records of the three files. *)
Lemma make_pages_sorted_witness :
  ∃ items w',
    make_pages blog "content/blog/*.html" blog_dst None ∅ = Ok (items, w')
    ∧ date_ymd_of <$> items = ["2021-06-15"; "2020-01-01"; "2019-12-31"]
    ∧ StronglySorted date_desc items
    ∧ ∃ records,
        Forall2 (record_of_source blog_dst)
          ["content/blog/2019-12-31-zeroth.html";
           "content/blog/2021-06-15-second.html";
           "content/blog/2020-01-01-first.html"] records
        ∧ items ≡ₚ records.
Proof.
  assert (match make_pages blog "content/blog/*.html" blog_dst None ∅ with
          | Ok (items, _) => date_ymd_of <$> items
          | Err _ => []
          end = ["2021-06-15"; "2020-01-01"; "2019-12-31"]) as Hdates
    by (vm_compute; reflexivity).
  assert (glob (files blog) "content/blog/*.html"
          = ["content/blog/2019-12-31-zeroth.html";
             "content/blog/2021-06-15-second.html";
             "content/blog/2020-01-01-first.html"]) as Hglob
    by (vm_compute; reflexivity).
  destruct (make_pages blog "content/blog/*.html" blog_dst None ∅)
    as [[items w']|e] eqn:Hrun; [|discriminate Hdates].
  exists items, w'. split; [reflexivity|]. split; [exact Hdates|].
  destruct (make_pages_sorted blog w' "content/blog/*.html" blog_dst
              None ∅ items Hrun) as (Hsorted & _ & _ & Hrecords).
  split; [exact Hsorted|]. rewrite Hglob in Hrecords. exact Hrecords.
Defined.

(** [glob] lists the three posts of the demo in another order than
    that of their dates, and the returned order is 2021-06-15,
    2020-01-01, 2019-12-31. *)
Example make_pages_three_dates :
  glob (files blog) "content/blog/*.html"
  = ["content/blog/2019-12-31-zeroth.html";
     "content/blog/2021-06-15-second.html";
     "content/blog/2020-01-01-first.html"]
  ∧ match make_pages blog "content/blog/*.html" blog_dst None ∅ with
    | Ok (items, _) => Ok (date_ymd_of <$> items)
    | Err e => Err e
    end = Ok ["2021-06-15"; "2020-01-01"; "2019-12-31"].
Proof. split; vm_compute; reflexivity. Qed.

(** The same order from the sort alone, on records that hold nothing
    but the three dates. *)
Example sorted_three_dates :
  sorted_by_date_ymd_reverse
    [{["date_ymd" := "2020-01-01"]}; {["date_ymd" := "2021-06-15"]};
     {["date_ymd" := "2019-12-31"]}]
  = Ok [{["date_ymd" := "2021-06-15"]}; {["date_ymd" := "2020-01-01"]};
        {["date_ymd" := "2019-12-31"]}].
Proof. vm_compute; reflexivity. Qed.

(** C4 at the limit 0: over the three posts of the demo the loop of
    [make_list] renders one fragment, where [min(0, 3)] is none. *)
Lemma make_list_limit_zero :
  ('(posts, w) ← make_pages blog "content/blog/*.html" blog_dst None ∅;
   make_list_loop w "<li>{{ title }}</li>" (Some 0%Z) ∅ 0 posts [])
  = Ok ["<li>Second</li>"].
Proof. vm_compute; reflexivity. Qed.

(** With the limit 2 the fragments are those of the two most recent
    posts. *)
Example make_list_limit_two :
  ('(posts, w) ← make_pages blog "content/blog/*.html" blog_dst None ∅;
   make_list_loop w "<li>{{ title }}</li>" (Some 2%Z) ∅ 0 posts [])
  = Ok ["<li>Second</li>"; "<li>First</li>"].
Proof. vm_compute; reflexivity. Qed.

(** C9, as stated, fails in [make_pages]: a turn of its loop leaves
    the fields of its item in the loop's mapping, which did not have
    them before. *)
Lemma make_pages_body_mutates_counterexample :
  (st ← make_pages_body blog_dst
          {| ps_params := ∅; ps_items := []; ps_world := blog |}
          "content/blog/2020-01-01-first.html";
   Ok (ps_params st !! "slug"))
  = Ok (Some "first")
  ∧ (∅ : dict) !! "slug" = None.
Proof. split; vm_compute; reflexivity. Qed.

End DemoRuns.

(* ================================================================== *)
(** * Part III: further properties of the code *)
(* ================================================================== *)

(** ** Writing files *)

Module DirFacts.
Import StrFacts.

Lemma rfind_present (c : ascii) (s : string) :
  Str.contains c s = true → (0 ≤ Str.rfind s (String c ""))%Z.
Proof.
  induction s as [|a s IH]; [done|]. cbn [Str.contains Str.rfind].
  intros Hc. destruct (Z.ltb_spec (Str.rfind s (String c "")) 0) as [Hneg|];
    [|lia].
  destruct (Str.contains c s); [specialize (IH eq_refl); lia|].
  rewrite orb_false_r in Hc. apply bool_decide_eq_true in Hc as ->.
  pose proof (prefix_app (String c "") s) as Hp.
  rewrite app_cons, app_nil_l in Hp. rewrite Hp. lia.
Qed.

Lemma slice_prefix (s : string) (i : Z) :
  Str.slice s None (Some i) = Str.take (Str.clamp (String.length s) i) s.
Proof. unfold Str.slice. cbn. by rewrite Nat.sub_0_r. Qed.

(** A path without a slash has no directory part. *)
Lemma dirname_plain (p : string) :
  Str.contains "/" p = false → Path.dirname p = "".
Proof.
  intros Hp. unfold Path.dirname.
  rewrite (PathFacts.rfind_absent _ _ Hp), slice_prefix.
  by destruct p.
Qed.

End DirFacts.

(** X2: writing to a path without a slash raises [FileNotFoundError]:
    the directory of such a path is the empty string, which is no
    directory and cannot be made. *)
Theorem fwrite_without_directory (w : world) (filename text : string) :
  Str.contains "/" filename = false →
  fwrite w filename text = Err (FileNotFoundError "").
Proof.
  intros Hplain. unfold fwrite. by rewrite (DirFacts.dirname_plain _ Hplain).
Qed.

Lemma fwrite_without_directory_witness :
  Str.contains "/" "index.html" = false
  ∧ fwrite Demo.blog "index.html" "<html></html>"
    = Err (FileNotFoundError "").
Proof.
  split; [reflexivity|].
  exact (fwrite_without_directory Demo.blog "index.html" "<html></html>"
           eq_refl).
Defined.

(** ** Truncation *)

Module WordFacts.
Import StrFacts SplitFacts.

(** What [split] returns are words. *)
Lemma split_words (s : string) :
  Forall (λ word, is_word word = true) (Str.split s).
Proof.
  induction s as [|c s IH]; [constructor|]. cbn [Str.split].
  destruct (Str.isspace c) eqn:Hc; [done|].
  assert (∀ word, is_word word = true → is_word (String c word) = true)
    as Hcons.
  { intros word [_ Hword]%andb_prop. unfold is_word. cbn. by rewrite Hc. }
  destruct (Str.starts_word s).
  - destruct (Str.split s) as [|word ws].
    + repeat constructor. unfold is_word. cbn. by rewrite Hc.
    + apply Forall_cons in IH as [Hword Hws]. constructor; auto.
  - constructor; [|done]. unfold is_word. cbn. by rewrite Hc.
Qed.

(** Joining words by single spaces and splitting again is the identity. *)
Lemma split_join (ws : list string) :
  Forall (λ word, is_word word = true) ws →
  Str.split (Str.join " " ws) = ws.
Proof.
  induction 1 as [|word ws Hword Hws IH]; [done|].
  destruct ws as [|word' ws].
  - cbn. rewrite <- (app_nil_r word) at 1. by rewrite split_word.
  - change (Str.join " " (word :: word' :: ws))
      with (word +:+ " " +:+ Str.join " " (word' :: ws)).
    rewrite split_word; [|done|done]. f_equal.
    by rewrite (split_space " ").
Qed.

Lemma truncate_nat (text : string) (n : nat) :
  truncate text (Z.of_nat n) = Str.join " " (take n (Str.split text)).
Proof. unfold truncate. by rewrite take_clamp. Qed.

End WordFacts.

(** X3: the summary that [truncate] makes consists of the first [n]
    words of the text and nothing else: splitting it gives back exactly
    these words, so it has at most [n] words and no white space but the
    single spaces between them; truncating it again changes nothing. *)
Theorem truncate_words (text : string) (n : nat) :
  Str.split (truncate text (Z.of_nat n)) = take n (Str.split text)
  ∧ truncate (truncate text (Z.of_nat n)) (Z.of_nat n)
    = truncate text (Z.of_nat n).
Proof.
  assert (Str.split (truncate text (Z.of_nat n)) = take n (Str.split text))
    as Hsplit.
  { rewrite WordFacts.truncate_nat. apply WordFacts.split_join.
    apply Forall_take, WordFacts.split_words. }
  split; [done|].
  rewrite (WordFacts.truncate_nat (truncate _ _)), Hsplit, take_take.
  rewrite Nat.min_id. by rewrite WordFacts.truncate_nat.
Qed.

(** ** More on the front-matter splitter *)

Module StripFacts.
Import StrFacts.

Lemma rstrip_word_start (c : ascii) (s : string) :
  Str.isspace c = false → Str.rstrip (String c s) = String c (Str.rstrip s).
Proof. intros Hc. cbn. rewrite Hc. by destruct (Str.rstrip s). Qed.

Lemma rstrip_cons (c : ascii) (s : string) :
  Str.rstrip (String c s)
  = match Str.rstrip s with
    | "" => if Str.isspace c then "" else String c ""
    | r => String c r
    end.
Proof. reflexivity. Qed.

Lemma rstrip_rstrip (s : string) : Str.rstrip (Str.rstrip s) = Str.rstrip s.
Proof.
  induction s as [|c s IH]; [done|]. rewrite rstrip_cons.
  destruct (Str.rstrip s) as [|a r] eqn:Hr.
  - destruct (Str.isspace c) eqn:Hc; [done|]. cbn. by rewrite Hc.
  - by rewrite rstrip_cons, IH.
Qed.

Lemma lstrip_start (s : string) :
  Str.lstrip s = "" ∨ Str.starts_word (Str.lstrip s) = true.
Proof.
  induction s as [|c s IH]; [by left|]. cbn [Str.lstrip].
  destruct (Str.isspace c) eqn:Hc; [done|]. right. cbn. by rewrite Hc.
Qed.

Lemma lstrip_word_start (s : string) :
  Str.starts_word s = true → Str.lstrip s = s.
Proof.
  destruct s as [|c s]; [done|]. cbn. by intros ->%negb_true_iff.
Qed.

(** A stripped text has no white space left at either end. *)
Lemma strip_ends (s : string) :
  Str.lstrip (Str.strip s) = Str.strip s
  ∧ Str.rstrip (Str.strip s) = Str.strip s.
Proof.
  unfold Str.strip. split; [|apply rstrip_rstrip].
  destruct (lstrip_start s) as [->|Hstart]; [done|].
  destruct (Str.lstrip s) as [|c t]; [done|].
  cbn in Hstart. apply negb_true_iff in Hstart.
  rewrite rstrip_word_start by done. cbn. by rewrite Hstart.
Qed.

Lemma strip_all_space (s : string) : all_space s = true → Str.strip s = "".
Proof.
  unfold Str.strip. induction s as [|c s IH]; [done|].
  cbn. intros [-> Hs]%andb_prop. auto.
Qed.

(** White space in front of a boundary that starts with another
    character does not hide the boundary. *)
Lemma find_after_space (gap boundary post : string) :
  all_space gap = true → Str.starts_word boundary = true →
  Str.find (gap +:+ boundary +:+ post) boundary
  = Z.of_nat (String.length gap).
Proof.
  intros Hgap Hb. induction gap as [|c gap IH].
  - rewrite app_nil_l. by rewrite find_prefix by apply prefix_app.
  - cbn in Hgap. apply andb_prop in Hgap as [Hc Hgap].
    rewrite app_cons. cbn [Str.find]. rewrite (IH Hgap).
    destruct boundary as [|b boundary]; [done|]. cbn in Hb.
    cbn [String.prefix].
    destruct (Ascii.ascii_dec b c) as [->|_]; [by rewrite Hc in Hb|].
    destruct (Z.ltb_spec (Z.of_nat (String.length gap)) 0); [lia|].
    cbn [String.length]. lia.
Qed.

End StripFacts.

(** X4: when the boundary is found at a position greater than 0, both
    parts that [separate_content_and_variables] returns are trimmed:
    neither starts nor ends with white space. *)
Theorem separate_parts_trimmed (text boundary : string) :
  (0 < Str.find text boundary)%Z →
  let parts := separate_content_and_variables text boundary in
  (Str.lstrip parts.1 = parts.1 ∧ Str.rstrip parts.1 = parts.1)
  ∧ (Str.lstrip parts.2 = parts.2 ∧ Str.rstrip parts.2 = parts.2).
Proof.
  intros Hpos. unfold separate_content_and_variables.
  destruct (Z.gtb_spec (Str.find text boundary) 0); [|lia].
  cbn. split; apply StripFacts.strip_ends.
Qed.

Lemma separate_parts_trimmed_witness :
  (0 < Str.find "title: Home  {# /variables #}  Welcome  " default_boundary)%Z
  ∧ separate_content_and_variables "title: Home  {# /variables #}  Welcome  "
      default_boundary
    = ("title: Home", "Welcome")
  ∧ Str.rstrip "title: Home" = "title: Home".
Proof.
  split; [reflexivity|]. split; [reflexivity|].
  exact (proj2 (proj1 (separate_parts_trimmed
                         "title: Home  {# /variables #}  Welcome  "
                         default_boundary eq_refl))).
Defined.

(** X5: white space alone before the boundary counts as front matter:
    for a boundary that does not start with white space, a text made of
    a non-empty gap of white space, the boundary and a body is split
    into empty variables and the trimmed body; the boundary is removed,
    unlike when it is the very first thing in the text. *)
Theorem separate_blank_front_matter (gap boundary body : string) :
  all_space gap = true → gap ≠ "" → Str.starts_word boundary = true →
  separate_content_and_variables (gap +:+ boundary +:+ body) boundary
  = ("", Str.strip body).
Proof.
  intros Hgap Hne Hb. unfold separate_content_and_variables.
  rewrite StripFacts.find_after_space by done.
  destruct (Z.gtb_spec (Z.of_nat (String.length gap)) 0) as [_|Hle].
  - rewrite StrFacts.slice_to, (StripFacts.strip_all_space _ Hgap).
    unfold Str.len.
    rewrite <- Nat2Z.inj_add, <- StrFacts.length_app.
    by rewrite <- StrFacts.app_assoc, StrFacts.slice_from.
  - destruct gap; [done | cbn in Hle; lia].
Qed.

Lemma separate_blank_front_matter_witness :
  all_space " " = true ∧ " " ≠ "" ∧ Str.starts_word default_boundary = true
  ∧ separate_content_and_variables (" " +:+ default_boundary +:+ "body")
      default_boundary
    = ("", "body").
Proof.
  split; [reflexivity|]. split; [discriminate|]. split; [reflexivity|].
  exact (separate_blank_front_matter " " default_boundary "body"
           eq_refl ltac:(discriminate) eq_refl).
Defined.

(** ** More on dates and on the content loader *)

Module LoaderFacts.
Import StrFacts.

(** The first group of a match, when there is one, is a date token. *)
Lemma search_group1 (s tok : string) (mo : Re.match_object) :
  Re.search s = Some mo → Re.group1 mo = Some tok →
  is_date_token tok = true.
Proof.
  unfold Re.search.
  destruct (Re.match_seq _ s) as [rest|] eqn:Hm.
  - destruct (ReFacts.date_dash_inv _ _ Hm) as (tok' & -> & Htok).
    destruct (Re.dot_plus_end rest) as [m|].
    + rewrite <- (ReFacts.date_token_length _ Htok), take_app.
      by intros [= <-] [= <-].
    + destruct (Re.dot_plus_end _); [|done]. by intros [= <-].
  - destruct (Re.dot_plus_end s); [|done]. by intros [= <-].
Qed.

Lemma dot_plus_end_facts (s m : string) :
  Re.dot_plus_end s = Some m →
  m ≠ "" ∧ Str.contains Re.newline m = false ∧ ∃ t, s = m +:+ t.
Proof.
  revert m. induction s as [|c s IH]; intros m; [done|].
  cbn [Re.dot_plus_end]. case_bool_decide as Hc; [done|].
  destruct (Re.dot_plus_end s) as [m'|].
  - intros [= <-]. destruct (IH m' eq_refl) as (_ & Hline & t & ->).
    repeat split; [done| |by exists t].
    cbn. by rewrite bool_decide_eq_false_2.
  - destruct (Re.at_end s); [|done]. intros [= <-].
    repeat split; [done| |by exists s].
    cbn. by rewrite bool_decide_eq_false_2.
Qed.

(** The second group is never empty, has no newline, and is a piece of
    the text searched. *)
Lemma search_group2_piece (s : string) (mo : Re.match_object) :
  Re.search s = Some mo →
  Re.group2 mo ≠ "" ∧ Str.contains Re.newline (Re.group2 mo) = false
  ∧ ∃ before after, s = before +:+ Re.group2 mo +:+ after.
Proof.
  unfold Re.search.
  assert (∀ m, Re.dot_plus_end s = Some m →
            m ≠ "" ∧ Str.contains Re.newline m = false
            ∧ ∃ before after, s = before +:+ m +:+ after) as Hwhole.
  { intros m (Hm & Hline & t & ->)%dot_plus_end_facts.
    repeat split; [done..|]. by exists "", t. }
  destruct (Re.match_seq _ s) as [rest|] eqn:Hm.
  - destruct (Re.dot_plus_end rest) as [m|] eqn:Hrest.
    + intros [= <-]. cbn.
      destruct (ReFacts.date_dash_inv _ _ Hm) as (tok & Hs & _).
      destruct (dot_plus_end_facts _ _ Hrest) as (Hne & Hline & t & ->).
      repeat split; [done..|]. exists (tok +:+ "-"), t.
      by rewrite Hs, !app_assoc.
    + destruct (Re.dot_plus_end s) as [m|]; [|done].
      intros [= <-]. by apply Hwhole.
  - destruct (Re.dot_plus_end s) as [m|]; [|done].
    intros [= <-]. by apply Hwhole.
Qed.

(** The first segment of a split has no separator, and the text starts
    with it. *)
Lemma first_segment_facts (c : ascii) (s : string) :
  Str.contains c (hd "" (Str.split_char c s)) = false
  ∧ ∃ t, s = hd "" (Str.split_char c s) +:+ t.
Proof.
  induction s as [|a s [IHc [t IHt]]]; [by split; [|exists ""]|].
  cbn [Str.split_char]. destruct (decide (a = c)) as [->|Hne].
  - split; [done|]. by exists (String c s).
  - destruct (Str.split_char c s) as [|seg segs]; cbn in *.
    + rewrite bool_decide_eq_false_2 by done. split; [done|].
      exists t. by rewrite IHt at 1.
    + rewrite bool_decide_eq_false_2 by done. split; [done|].
      exists t. by rewrite IHt at 1.
Qed.

Lemma length_drop (n : nat) (s : string) :
  String.length (Str.drop n s) = String.length s - n.
Proof.
  revert s. induction n as [|n IH]; intros [|c s]; cbn; auto with lia.
Qed.

Lemma slice_suffix (s : string) (i : Z) :
  Str.slice s (Some i) None = Str.drop (Str.clamp (String.length s) i) s.
Proof.
  unfold Str.slice. cbn. rewrite <- length_drop. apply take_all.
Qed.

(** What is left after the last slash has no slash. *)
Lemma drop_after_last (c : ascii) (s : string) :
  Str.contains c
    (Str.drop (Str.clamp (String.length s) (Str.rfind s (String c "") + 1)) s)
  = false.
Proof.
  induction s as [|a s IH]; [done|].
  destruct (Str.contains c s) eqn:Hc.
  - pose proof (DirFacts.rfind_present _ _ Hc) as Hr.
    cbn [Str.rfind].
    destruct (Z.ltb_spec (Str.rfind s (String c "")) 0); [lia|].
    assert (Str.rfind s (String c "") < Z.of_nat (String.length s))%Z
      as Hlt.
    { clear IH. induction s as [|b s IHs]; [done|].
      cbn [Str.rfind String.length] in *.
      destruct (Z.ltb_spec (Str.rfind s (String c "")) 0).
      - destruct (String.prefix _ _); lia.
      - destruct (Str.contains c s) eqn:Hs.
        + specialize (IHs eq_refl). lia.
        + rewrite (PathFacts.rfind_absent _ _ Hs) in *. lia. }
    unfold Str.clamp in *. cbn [String.length].
    destruct (Z.ltb_spec (Str.rfind s (String c "") + 1 + 1) 0); [lia|].
    destruct (Z.ltb_spec (Str.rfind s (String c "") + 1) 0); [lia|].
    rewrite Z.min_l in IH by lia. rewrite Z.min_l by lia.
    replace (Z.to_nat (Str.rfind s (String c "") + 1 + 1))
      with (S (Z.to_nat (Str.rfind s (String c "") + 1))) by lia.
    exact IH.
  - cbn [Str.rfind]. rewrite (PathFacts.rfind_absent _ _ Hc). cbn.
    destruct (Ascii.ascii_dec c a) as [->|Hne].
    + replace (String.prefix "" s) with true by (by destruct s).
      replace (Str.clamp (S (String.length s)) (0 + 1)) with 1
        by (unfold Str.clamp; destruct (Z.ltb_spec (0 + 1) 0); lia).
      done.
    + replace (Str.clamp (S (String.length s)) (-1 + 1)) with 0
        by (unfold Str.clamp; destruct (Z.ltb_spec (-1 + 1) 0); lia).
      cbn. rewrite Hc. by rewrite bool_decide_eq_false_2.
Qed.

Lemma basename_no_slash (p : string) :
  Str.contains "/" (Path.basename p) = false.
Proof.
  unfold Path.basename. rewrite slice_suffix. apply drop_after_last.
Qed.

(** A character that is neither a digit nor a dash is not in a date
    token. *)
Lemma date_token_chars (tok : string) (x : ascii) :
  is_date_token tok = true → Str.isdigit x = false → x ≠ "-"%char →
  Str.contains x tok = false.
Proof.
  intros (y1 & y2 & y3 & y4 & m1 & m2 & d1 & d2 & -> & Hd)%DateFacts.date_token_inv
    Hx Hdash.
  repeat match goal with
         | H : Forall _ (_ :: _) |- _ => apply Forall_cons in H as [? H]
         end.
  cbn. rewrite !orb_false_r.
  repeat match goal with
         | |- context [bool_decide (?a = x)] =>
             rewrite (bool_decide_eq_false_2 (a = x)) by congruence
         end.
  done.
Qed.

End LoaderFacts.

Section LoaderProperties.
Context `{Externals}.

(** X6: on a date token [format_date] returns exactly when the token is
    a day of the calendar, and then the date formatted with the
    override when there is a non-empty one and with the global
    [date_format] otherwise; for any other token it raises
    [ValueError]. *)
Theorem format_date_token (tok : string) (override : option string) :
  is_date_token tok = true →
  (is_calendar_date tok = true →
   format_date tok override
   = Ok (let '(y, m, dd) := token_fields tok in
         strftime (match override with
                   | Some fmt => if String.eqb fmt "" then date_format else fmt
                   | None => date_format
                   end) y m dd))
  ∧ (is_calendar_date tok = false →
     ∃ msg, format_date tok override = Err (ValueError msg)).
Proof.
  intros Htok. unfold format_date.
  destruct (DateFacts.strptime_token _ Htok) as [Hgood Hbad]. split.
  - intros Hcal. rewrite (Hgood Hcal).
    destruct (token_fields tok) as [[y m] dd]. cbn. do 2 f_equal.
    by destruct override as [[|c fmt]|].
  - intros Hcal. destruct (Hbad Hcal) as [msg ->]. by exists msg.
Qed.

(** X7: every record that [read_content] returns has exactly the keys
    [date], [date_ymd], [date_rfc_2822], [slug] and [content], and its
    [date_ymd] is a date token that denotes a day of the calendar: ten
    characters [YYYY-MM-DD], so that the order of the texts is the
    order of the dates. *)
Theorem read_content_record_invariant (w : world) (filename : string)
    (c : dict) :
  read_content w filename = Ok c →
  dom c = content_keys
  ∧ ∃ d, c !! "date_ymd" = Some d
         ∧ is_date_token d = true ∧ is_calendar_date d = true.
Proof.
  intros (text & mo & y & m & dd & _ & Hsearch & Hdate & ->)%read_content_Ok_inv.
  pose proof (record_of_lookup filename text mo y m dd)
    as (Hymd & _ & _ & Hdom).
  split; [done|]. eexists. split; [exact Hymd|].
  destruct (Re.group1 mo) as [tok|] eqn:Hg; [|done].
  pose proof (LoaderFacts.search_group1 _ _ _ Hsearch Hg) as Htok.
  assert (Str.or_else (Some tok) "1970-01-01" = tok) as Hor.
  { pose proof (ReFacts.date_token_length _ Htok). by destruct tok. }
  rewrite Hor in *. split; [done|].
  destruct (DateFacts.strptime_token _ Htok) as [_ Hbad].
  destruct (is_calendar_date tok); [done|].
  destruct (Hbad eq_refl) as [msg Hmsg]. congruence.
Qed.

(** X8: the slug of every record is fit for a path segment: it is not
    empty and contains no dot, no slash and no newline. *)
Theorem read_content_slug_clean (w : world) (filename : string) (c : dict) :
  read_content w filename = Ok c →
  ∃ slug, c !! "slug" = Some slug
          ∧ slug ≠ ""
          ∧ Str.contains "." slug = false
          ∧ Str.contains "/" slug = false
          ∧ Str.contains Re.newline slug = false.
Proof.
  intros (text & mo & y & m & dd & _ & Hsearch & _ & ->)%read_content_Ok_inv.
  pose proof (record_of_lookup filename text mo y m dd) as (_ & Hslug & _).
  exists (Re.group2 mo). split; [done|].
  destruct (LoaderFacts.search_group2_piece _ _ Hsearch)
    as (Hne & Hline & before & after & Hpiece).
  destruct (LoaderFacts.first_segment_facts "." (Path.basename filename))
    as [Hdot [t Hseg]].
  pose proof (LoaderFacts.basename_no_slash filename) as Hslash.
  rewrite Hseg, SlugFacts.contains_app in Hslash.
  apply orb_false_elim in Hslash as [Hslash _].
  rewrite Hpiece, !SlugFacts.contains_app in Hdot, Hslash.
  apply orb_false_elim in Hdot as [_ [Hdot _]%orb_false_elim].
  apply orb_false_elim in Hslash as [_ [Hslash _]%orb_false_elim].
  done.
Qed.

(** X9: a name that is a date token and a dash with nothing after them
    before the extension is not read as dated: whatever the token, even
    one that is no day of the calendar, the record has the date
    [1970-01-01] and the token with its dash as the slug. *)
Theorem read_content_date_without_slug (w : world)
    (filename tok ext text : string) :
  files w !! filename = Some text →
  Path.basename filename = (tok +:+ "-") +:+ "." +:+ ext →
  is_date_token tok = true →
  ∃ c, read_content w filename = Ok c
       ∧ c !! "date_ymd" = Some "1970-01-01"
       ∧ c !! "slug" = Some (tok +:+ "-").
Proof.
  intros Hfile Hbase Htok.
  assert (∀ x, Str.isdigit x = false → x ≠ "-"%char →
            Str.contains x (tok +:+ "-") = false) as Hchars.
  { intros x Hx Hdash. rewrite SlugFacts.contains_app,
      (LoaderFacts.date_token_chars _ _ Htok Hx Hdash).
    cbn. by rewrite bool_decide_eq_false_2. }
  rewrite read_content_unfold, Hfile, Hbase,
    PathFacts.first_segment_dotted by (by apply Hchars).
  assert (Re.search (tok +:+ "-")
          = Some {| Re.group1 := None; Re.group2 := tok +:+ "-" |}) as ->.
  { unfold Re.search.
    pose proof (ReFacts.date_dash_match tok "" Htok) as Hm.
    change (tok +:+ "-" +:+ "") with (tok +:+ "-") in Hm. rewrite Hm.
    cbn [Re.dot_plus_end].
    rewrite ReFacts.dot_plus_end_line; [done| |by apply Hchars].
    by destruct tok. }
  cbn [Re.group1 Str.or_else]. rewrite DateFacts.strptime_epoch.
  eexists. split; [done|].
  pose proof (record_of_lookup filename text
                {| Re.group1 := None; Re.group2 := tok +:+ "-" |} 1970 1 1)
    as (Hymd & Hsl & _).
  by cbn [Re.group1 Re.group2 Str.or_else] in *.
Qed.

(** X10: the date and the slug of a record depend on nothing but the
    part of the base name before its first dot: two files named alike
    up to the extension, wherever they are and whatever they hold, get
    records that agree on every key but [content]. *)
Theorem read_content_same_stem (w1 w2 : world)
    (filename1 filename2 stem ext1 ext2 : string) (c1 c2 : dict) :
  Path.basename filename1 = stem +:+ "." +:+ ext1 →
  Path.basename filename2 = stem +:+ "." +:+ ext2 →
  Str.contains "." stem = false →
  read_content w1 filename1 = Ok c1 →
  read_content w2 filename2 = Ok c2 →
  ∀ key, key ≠ "content" → c1 !! key = c2 !! key.
Proof.
  intros Hbase1 Hbase2 Hdot
    (text1 & mo1 & y1 & m1 & dd1 & _ & Hsearch1 & Hdate1 & ->)%read_content_Ok_inv
    (text2 & mo2 & y2 & m2 & dd2 & _ & Hsearch2 & Hdate2 & ->)%read_content_Ok_inv
    key Hkey.
  rewrite Hbase1, PathFacts.first_segment_dotted in Hsearch1 by done.
  rewrite Hbase2, PathFacts.first_segment_dotted in Hsearch2 by done.
  assert (mo2 = mo1) as -> by congruence.
  assert ((y2, m2, dd2) = (y1, m1, dd1)) as [= -> -> ->] by congruence.
  unfold record_of. by rewrite !(lookup_insert_ne _ "content") by done.
Qed.

(** X11: a Markdown file whose text starts with the front-matter
    boundary keeps it: with no custom parser, the content of its record
    is the header include, the conversion of the whole text, boundary
    included, and the footer include. *)
Theorem read_content_boundary_on_first_line (w : world)
    (filename body : string) (c : dict) :
  Str.endswith_any filename markdown_extensions = true →
  files w !! filename = Some (default_boundary +:+ body) →
  add_parser = None →
  read_content w filename = Ok c →
  c !! "content"
  = Some (md_header +:+ commonmark (default_boundary +:+ body)
          +:+ md_footer).
Proof.
  intros Hmd Hfile Hnone
    (text & mo & y & m & dd & Hfile' & _ & _ & ->)%read_content_Ok_inv.
  assert (text = default_boundary +:+ body) as -> by congruence.
  pose proof (record_of_lookup filename (default_boundary +:+ body) mo y m dd)
    as (_ & _ & Hcontent & _).
  cbv zeta in Hcontent. rewrite Hcontent. f_equal.
  unfold parsed_text, assembled_text, separate_content_and_variables.
  rewrite Hnone, Hmd.
  by rewrite StrFacts.find_prefix by apply StrFacts.prefix_app.
Qed.

End LoaderProperties.

(** ** More on the page builder *)

Section PageBuilderProperties.
Context `{Externals}.

(** What one turn of the loop of [make_pages] does to the world: one
    file written, one line logged. *)
Lemma make_pages_body_world (dst : string) (st st' : pages_state)
    (src_path : string) :
  make_pages_body dst st src_path = Ok st' →
  ∃ context dst_path output,
    read_content (ps_world st) src_path = Ok context
    ∧ ps_items st' = ps_items st ++ [<["dest_path" := dst_path]> context]
    ∧ files (ps_world st') = <[dst_path := output]> (files (ps_world st))
    ∧ stderr (ps_world st')
      = stderr (ps_world st) ++ [page_log_line src_path dst_path].
Proof.
  unfold make_pages_body. intros Hrun.
  destruct (read_content _ _) as [context|] eqn:Hread; [|done].
  cbn in Hrun.
  destruct (render _ dst _) as [dst_path|]; [|done]. cbn in Hrun.
  destruct (getitem context "content") as [content|]; [|done].
  cbn in Hrun.
  destruct (render _ content _) as [output|]; [|done]. cbn in Hrun.
  unfold fwrite in Hrun.
  destruct (String.eqb (Path.dirname dst_path) ""); [done|].
  cbn in Hrun. injection Hrun as <-.
  by exists context, dst_path, output.
Qed.

Lemma make_pages_loop_progress (dst : string) (w : world)
    (paths : list string) (n : nat) (st st' : pages_state) :
  pages_progress w n st →
  for_each (make_pages_body dst) st paths = Ok st' →
  pages_progress w (n + length paths) st'.
Proof.
  revert n st. induction paths as [|p paths IH]; intros n st Hst; cbn.
  - intros [= <-]. by rewrite Nat.add_0_r.
  - destruct (make_pages_body dst st p) as [s|e] eqn:Hs; [|done]. cbn.
    intros Hrest. replace (n + S (length paths)) with (S n + length paths)
      by lia.
    apply (IH _ s); [|done].
    destruct Hst as (Hdom & (lines & Hlines & Hn) & Hitems).
    apply make_pages_body_world in Hs
      as (c & d & out & Hread & Hit & Hfiles & Hlog).
    split; [|split].
    + rewrite Hfiles, dom_insert_L. set_solver.
    + exists (lines ++ [page_log_line p d]). split.
      * by rewrite Hlog, Hlines, <- app_assoc.
      * rewrite length_app. cbn. lia.
    + rewrite Hit, Hfiles, dom_insert_L. apply Forall_app. split.
      * eapply Forall_impl; [exact Hitems|].
        intros x (Hx & q & Hq & Hin). split; [done|].
        exists q. split; [done|]. apply elem_of_union. by right.
      * constructor; [|constructor]. split.
        -- rewrite dom_insert_L, (read_content_dom _ _ _ Hread). done.
        -- exists d. rewrite lookup_insert_eq. split; [done|]. set_solver.
Qed.

Lemma make_pages_progress (w w' : world) (src dst : string)
    (layout : option string) (params : dict) (items : list dict) :
  make_pages w src dst layout params = Ok (items, w') →
  ∃ st, pages_progress w (length (glob (files w) src)) st
        ∧ ps_world st = w' ∧ items ≡ₚ ps_items st.
Proof.
  unfold make_pages. intros Hrun.
  destruct (for_each _ _ _) as [st|] eqn:Hloop; [|done]. cbn in Hrun.
  destruct (sorted_by_date_ymd_reverse _) as [sorted|] eqn:Hsort; [|done].
  cbn in Hrun. injection Hrun as <- <-.
  apply SortFacts.sorted_by_date_ymd_reverse_spec in Hsort as (Hperm & _).
  exists st. split; [|done].
  apply (make_pages_loop_progress dst w _ 0) in Hloop; [done|].
  split; [done|]. split; [by exists []; rewrite app_nil_r|constructor].
Qed.

(** X12: every record that [make_pages] returns has exactly the six
    keys [date], [date_ymd], [date_rfc_2822], [slug], [content] and
    [dest_path], and its [dest_path] is a file of the world that
    [make_pages] leaves: the list builder will find the page. *)
Theorem make_pages_records (w w' : world) (src dst : string)
    (layout : option string) (params : dict) (items : list dict) :
  make_pages w src dst layout params = Ok (items, w') →
  Forall (λ x, dom x = page_keys
               ∧ ∃ p html, x !! "dest_path" = Some p
                           ∧ fread w' p = Ok html) items.
Proof.
  intros (st & (_ & _ & Hitems) & <- & Hperm)%make_pages_progress.
  rewrite Hperm. eapply Forall_impl; [exact Hitems|].
  intros x (Hx & p & Hp & Hin). apply elem_of_dom in Hin as [html Hhtml].
  split; [done|].
  exists p, html. split; [done|]. unfold fread. by rewrite Hhtml.
Qed.

(** X13: [make_pages] removes nothing: every path that was a file
    before is one afterwards; and it logs one line for each listed
    path, after the lines that were there. *)
Theorem make_pages_world (w w' : world) (src dst : string)
    (layout : option string) (params : dict) (items : list dict) :
  make_pages w src dst layout params = Ok (items, w') →
  dom (files w) ⊆ dom (files w')
  ∧ ∃ lines, stderr w' = stderr w ++ lines
             ∧ length lines = length (glob (files w) src).
Proof.
  by intros (st & (Hdom & Hlog & _) & <- & _)%make_pages_progress.
Qed.

End PageBuilderProperties.

(** ** Stability of the sort *)

Module StableFacts.

Lemma compare_refl (s : string) : String.compare s s = Eq.
Proof.
  induction s as [|c s IH]; [done|]. cbn.
  unfold Ascii.compare. by rewrite N.compare_refl.
Qed.

Lemma ltb_keys_differ (a b : string) : String.ltb a b = true → a ≠ b.
Proof.
  unfold String.ltb. intros Hlt ->. by rewrite compare_refl in Hlt.
Qed.

(** Inserting a pair does not change the order of the pairs of any one
    key. *)
Lemma filter_insert_desc (d : string) (x : string * dict)
    (l : list (string * dict)) :
  filter (λ p, p.1 = d) (insert_desc x l) = filter (λ p, p.1 = d) (x :: l).
Proof.
  induction l as [|y l IH]; [done|]. cbn [insert_desc].
  destruct (String.ltb x.1 y.1) eqn:Hlt; [|done].
  apply ltb_keys_differ in Hlt.
  rewrite (filter_cons _ y), IH, !(filter_cons _ x), (filter_cons _ y).
  repeat case_decide; congruence.
Qed.

Lemma filter_sort_desc (d : string) (l : list (string * dict)) :
  filter (λ p, p.1 = d) (sort_desc l) = filter (λ p, p.1 = d) l.
Proof.
  induction l as [|x l IH]; [done|]. cbn [sort_desc].
  by rewrite filter_insert_desc, !filter_cons, IH.
Qed.

Lemma dated_keyed (d : string) (l : list (string * dict)) :
  Forall (λ p : string * dict, p.2 !! "date_ymd" = Some p.1) l →
  dated d (l.*2) = (filter (λ p, p.1 = d) l).*2.
Proof.
  unfold dated. induction 1 as [|[k x] l Hx _ IH]; [done|].
  cbn in Hx. rewrite fmap_cons, !filter_cons, IH.
  unfold date_ymd_of. cbn. rewrite Hx. cbn.
  by repeat case_decide.
Qed.

End StableFacts.

(** X14: the sort of [make_pages] is stable: among the records of one
    and the same date, the sorted list keeps the order of the list
    given, for every date. *)
Theorem sorted_by_date_ymd_reverse_stable (items sorted : list dict)
    (d : string) :
  sorted_by_date_ymd_reverse items = Ok sorted →
  dated d sorted = dated d items.
Proof.
  unfold sorted_by_date_ymd_reverse.
  destruct (mapM _ items) as [keys|e] eqn:Hkeys; [|done]. cbn.
  intros [= <-]. apply SortFacts.mapM_Ok_inv in Hkeys.
  pose proof (Forall2_length _ _ _ Hkeys) as Hlen.
  assert (Forall (λ p : string * dict, p.2 !! "date_ymd" = Some p.1)
            (zip keys items)) as Hpairs.
  { clear Hlen. induction Hkeys as [|x k l ks Hk _ IH]; [constructor|].
    constructor; [|done]. cbn. unfold getitem in Hk.
    by destruct (x !! "date_ymd"); simplify_eq. }
  rewrite StableFacts.dated_keyed
    by (by rewrite SortFacts.sort_desc_perm).
  rewrite StableFacts.filter_sort_desc, <- StableFacts.dated_keyed by done.
  by rewrite snd_zip by lia.
Qed.

(** ** More on the list builder *)

Section ListBuilderProperties.
Context `{Externals}.

(** X15: the fragments that [make_list] renders, for every limit.  A
    limit of at least 1 gives the fragments of the first [limit] posts
    (of all of them when there are fewer), in order; no limit gives
    those of all posts; a limit below 1 gives what the limit 1 gives. *)
Theorem make_list_fragments (w : world) (item_layout : string)
    (params : dict) (posts : list dict) :
  (∀ l, (1 ≤ l)%Z →
     make_list_loop w item_layout (Some l) params 0 posts []
     = mapM (render_item w item_layout params) (take (Z.to_nat l) posts))
  ∧ make_list_loop w item_layout None params 0 posts []
    = mapM (render_item w item_layout params) posts
  ∧ (∀ l, (l ≤ 1)%Z →
       make_list_loop w item_layout (Some l) params 0 posts []
       = mapM (render_item w item_layout params) (take 1 posts)).
Proof.
  split; [|split].
  - intros l Hl. rewrite make_list_loop_limited, bind_Ok_r, Z.sub_0_r.
    by rewrite Z.max_r by done.
  - by rewrite make_list_loop_unlimited, bind_Ok_r.
  - intros l Hl. rewrite make_list_loop_limited, bind_Ok_r, Z.sub_0_r.
    by rewrite Z.max_l by done.
Qed.

(** X16: what [make_list] changes when it returns: it writes one file,
    the list layout rendered with the parameter [content] set to the
    concatenation of the fragments, at the path that the destination
    template renders to with the same parameters; and it logs one line.
    Every other file and every earlier line stay as they were. *)
Theorem make_list_writes_one (w w' : world) (posts : list dict)
    (dst list_layout item_layout : string) (limit : option Z)
    (params : dict) :
  make_list w posts dst list_layout item_layout limit params = Ok w' →
  ∃ items dst_path output,
    make_list_loop w item_layout limit params 0 posts [] = Ok items
    ∧ render w dst (<["content" := Str.join "" items]> params) = Ok dst_path
    ∧ render w list_layout (<["content" := Str.join "" items]> params)
      = Ok output
    ∧ files w' = <[dst_path := output]> (files w)
    ∧ stderr w' = stderr w ++ [list_log_line dst_path].
Proof.
  unfold make_list. intros Hrun.
  destruct (make_list_loop _ _ _ _ _ _ _) as [items|]; [|done].
  cbn in Hrun.
  destruct (render w dst _) as [dst_path|] eqn:Hdst; [|done]. cbn in Hrun.
  destruct (render w list_layout _) as [output|] eqn:Hout; [|done].
  cbn in Hrun. unfold fwrite in Hrun.
  destruct (String.eqb (Path.dirname dst_path) ""); [done|].
  injection Hrun as <-. by exists items, dst_path, output.
Qed.

(** X17: a first post without [dest_path], when the parameters have
    none either, makes [make_list] raise [KeyError] for that key. *)
Theorem make_list_missing_dest_path (w : world) (post : dict)
    (posts : list dict) (dst list_layout item_layout : string)
    (limit : option Z) (params : dict) :
  post !! "dest_path" = None → params !! "dest_path" = None →
  make_list w (post :: posts) dst list_layout item_layout limit params
  = Err (KeyError "dest_path").
Proof.
  intros Hpost Hparams. unfold make_list. cbn [make_list_loop].
  unfold render_item, item_params_of, getitem.
  by rewrite lookup_union, Hpost, Hparams.
Qed.

(** X18: a parameter named [html] makes [make_list] raise, whatever
    the templates, and tells with which exception.  Without posts it is
    the [TypeError] of [render], whose first argument the parameter
    collides with, raised for the destination path.  With posts it is
    raised on the first one: what looking up its [dest_path] or getting
    its title and summary raises, and otherwise that [TypeError] of
    [render], raised for the item. *)
Theorem make_list_html_parameter (w : world) (posts : list dict)
    (dst list_layout item_layout : string) (limit : option Z)
    (params : dict) (v : string) :
  params !! "html" = Some v →
  make_list w posts dst list_layout item_layout limit params
  = match posts with
    | [] =>
        Err (TypeError "render() got multiple values for argument 'html'")
    | post :: _ =>
        match dest_path ← getitem (item_params_of params post) "dest_path";
              get_title_and_summary w dest_path with
        | Ok _ =>
            Err (TypeError
                   "render() got multiple values for argument 'html'")
        | Err e => Err e
        end
    end.
Proof.
  intros Hhtml. unfold make_list. destruct posts as [|post posts].
  - cbn. unfold render. by rewrite lookup_insert_ne, Hhtml by done.
  - cbn [make_list_loop]. unfold render_item.
    destruct (getitem _ "dest_path") as [dest_path|e]; [|done]. cbn.
    destruct (get_title_and_summary w dest_path) as [[title summary]|e];
      [|done].
    cbn.
    assert (is_Some (item_params_of params post !! "html")) as [x Hx].
    { unfold item_params_of. rewrite lookup_union, Hhtml.
      by destruct (post !! "html"). }
    assert (render w item_layout
              (<["summary" := summary]>
                 (<["title" := title]> (item_params_of params post)))
            = Err (TypeError
                     "render() got multiple values for argument 'html'"))
      as ->; [|done].
    unfold render. by rewrite !lookup_insert_ne, Hx by done.
Qed.

End ListBuilderProperties.

(** ** The content directory of a section *)

(** X19: [get_content_path] returns for every [path] that is a string,
    and what it returns is [content/] followed by the path, or the
    directory of the blog or of the news; in every case a path under
    [content/].  It raises only when no [path] is given and the section
    has no directory of its own to fall back to. *)
Theorem get_content_path_result (isdir : string → bool)
    (section : string) (path : option string) :
  (∀ p, path = Some p →
     ∃ r, get_content_path isdir section path = Ok r
          ∧ (r = "content/" +:+ p ∨ r = "content/blog" ∨ r = "content/news"))
  ∧ (∀ r, get_content_path isdir section path = Ok r →
       String.prefix "content/" r = true)
  ∧ (∀ e, get_content_path isdir section path = Err e →
       path = None
       ∧ (section = "blog" → isdir "content/blog" = false)
       ∧ (section = "news" → isdir "content/news" = false)).
Proof.
  unfold get_content_path. split; [|split].
  - intros p ->.
    repeat match goal with
           | |- context [if ?b then _ else _] => destruct b
           end; eauto.
  - intros r.
    destruct path as [p|];
      repeat match goal with
             | |- context [if ?b then _ else _] => destruct b
             end;
      intros [= <-]; try reflexivity;
      apply (StrFacts.prefix_app "content/" p).
  - intros e. destruct path as [p|].
    + repeat match goal with
             | |- context [if ?b then _ else _] => destruct b
             end; discriminate.
    + intros He. split; [done|]. split; intros ->; cbn in He.
      * by destruct (isdir "content/blog").
      * by destruct (isdir "content/news").
Qed.

(** ** The summary of a page *)

Section SummaryProperties.
Context `{Externals}.

(** X20: whatever the rendered page holds, the summary that
    [get_title_and_summary] returns has at most 25 words, separated by
    single spaces and with no white space around them: cutting it to 25
    words again gives the same text. *)
Theorem get_title_and_summary_bounded (w : world) (path title summary : string) :
  get_title_and_summary w path = Ok (title, summary) →
  length (Str.split summary) ≤ 25
  ∧ Str.join " " (Str.split summary) = summary
  ∧ truncate summary 25 = summary.
Proof.
  unfold get_title_and_summary. intros Hrun.
  destruct (fread w path) as [html|]; [|done]. cbn in Hrun.
  destruct (text_of (soup_find_id _ "title")) as [t|]; [|done].
  cbn in Hrun.
  destruct (text_of (soup_find_id _ "post")) as [post|]; [|done].
  cbn in Hrun. injection Hrun as <- <-.
  rewrite (SplitFacts.truncate_25 post).
  assert (Str.split (Str.join " " (take 25 (Str.split post)))
          = take 25 (Str.split post)) as Hsplit.
  { apply WordFacts.split_join, Forall_take, WordFacts.split_words. }
  rewrite SplitFacts.truncate_25, Hsplit, take_take, Nat.min_id.
  repeat split. rewrite length_take. lia.
Qed.

End SummaryProperties.

(** ** Concrete runs of the further properties *)

Module MoreRuns.
Import Demo.

Lemma format_date_token_witness :
  is_date_token "2020-02-29" = true
  ∧ is_calendar_date "2020-02-29" = true
  ∧ format_date "2020-02-29" (Some "") = Ok "%b %d, %Y".
Proof.
  split; [reflexivity|]. split; [reflexivity|].
  exact (proj1 (format_date_token "2020-02-29" (Some "") eq_refl) eq_refl).
Defined.

Lemma read_content_record_invariant_witness :
  ∃ c, read_content blog "content/blog/2020-01-01-first.html" = Ok c
       ∧ dom c = content_keys.
Proof.
  assert (returns (read_content blog "content/blog/2020-01-01-first.html")
          = true) as Hok by (vm_compute; reflexivity).
  destruct (read_content blog "content/blog/2020-01-01-first.html")
    as [c|e] eqn:Hrun; [|discriminate Hok].
  exists c. split; [reflexivity|].
  exact (proj1 (read_content_record_invariant blog
                  "content/blog/2020-01-01-first.html" c Hrun)).
Defined.

Lemma read_content_slug_clean_witness :
  ∃ c slug, read_content site "content/my.note.md" = Ok c
            ∧ c !! "slug" = Some slug ∧ slug ≠ "".
Proof.
  assert (returns (read_content site "content/my.note.md") = true) as Hok
    by (vm_compute; reflexivity).
  destruct (read_content site "content/my.note.md") as [c|e] eqn:Hrun;
    [|discriminate Hok].
  destruct (read_content_slug_clean site "content/my.note.md" c Hrun)
    as (slug & Hslug & Hne & _).
  exists c, slug. split; [reflexivity|]. split; [exact Hslug | exact Hne].
Defined.

Lemma read_content_date_without_slug_witness :
  ∃ c, read_content Demo2.pair "content/blog/2021-06-15-.md" = Ok c
       ∧ c !! "date_ymd" = Some "1970-01-01"
       ∧ c !! "slug" = Some "2021-06-15-".
Proof.
  exact (read_content_date_without_slug Demo2.pair
           "content/blog/2021-06-15-.md" "2021-06-15" "md" "text"
           eq_refl eq_refl eq_refl).
Defined.

Lemma read_content_same_stem_witness :
  ∃ c1 c2,
    read_content Demo2.pair "content/blog/2021-06-15-post.md" = Ok c1
    ∧ read_content Demo2.pair "content/pages/2021-06-15-post.html" = Ok c2
    ∧ c1 !! "slug" = c2 !! "slug".
Proof.
  assert (returns (read_content Demo2.pair "content/blog/2021-06-15-post.md")
          = true) as Hok1 by (vm_compute; reflexivity).
  assert (returns (read_content Demo2.pair
                     "content/pages/2021-06-15-post.html") = true) as Hok2
    by (vm_compute; reflexivity).
  destruct (read_content Demo2.pair "content/blog/2021-06-15-post.md")
    as [c1|e] eqn:Hrun1; [|discriminate Hok1].
  destruct (read_content Demo2.pair "content/pages/2021-06-15-post.html")
    as [c2|e] eqn:Hrun2; [|discriminate Hok2].
  exists c1, c2. split; [reflexivity|]. split; [reflexivity|].
  exact (read_content_same_stem Demo2.pair Demo2.pair
           "content/blog/2021-06-15-post.md"
           "content/pages/2021-06-15-post.html" "2021-06-15-post" "md" "html"
           c1 c2 eq_refl eq_refl eq_refl Hrun1 Hrun2 "slug"
           ltac:(discriminate)).
Defined.

Lemma read_content_boundary_on_first_line_witness :
  ∃ c, read_content Demo2.pair "content/blog/first-line.md" = Ok c
       ∧ c !! "content"
         = Some "{% include 'md_header.html' %}<p>{# /variables #}body</p>{% include 'md_footer.html' %}".
Proof.
  assert (returns (read_content Demo2.pair "content/blog/first-line.md")
          = true) as Hok by (vm_compute; reflexivity).
  destruct (read_content Demo2.pair "content/blog/first-line.md")
    as [c|e] eqn:Hrun; [|discriminate Hok].
  exists c. split; [reflexivity|].
  exact (read_content_boundary_on_first_line Demo2.pair
           "content/blog/first-line.md" "body" c eq_refl eq_refl eq_refl Hrun).
Defined.

Lemma make_pages_records_witness :
  ∃ items w',
    make_pages blog "content/blog/*.html" blog_dst None ∅ = Ok (items, w')
    ∧ Forall (λ x, dom x = page_keys) items.
Proof.
  assert (returns (make_pages blog "content/blog/*.html" blog_dst None ∅)
          = true) as Hok by (vm_compute; reflexivity).
  destruct (make_pages blog "content/blog/*.html" blog_dst None ∅)
    as [[items w']|e] eqn:Hrun; [|discriminate Hok].
  exists items, w'. split; [reflexivity|].
  eapply Forall_impl;
    [exact (make_pages_records blog w' "content/blog/*.html" blog_dst
              None ∅ items Hrun)|].
  by intros x [Hx _].
Defined.

Lemma make_pages_world_witness :
  ∃ items w',
    make_pages blog "content/blog/*.html" blog_dst None ∅ = Ok (items, w')
    ∧ dom (files blog) ⊆ dom (files w').
Proof.
  assert (returns (make_pages blog "content/blog/*.html" blog_dst None ∅)
          = true) as Hok by (vm_compute; reflexivity).
  destruct (make_pages blog "content/blog/*.html" blog_dst None ∅)
    as [[items w']|e] eqn:Hrun; [|discriminate Hok].
  exists items, w'. split; [reflexivity|].
  exact (proj1 (make_pages_world blog w' "content/blog/*.html" blog_dst
                  None ∅ items Hrun)).
Defined.

Lemma sorted_by_date_ymd_reverse_stable_witness :
  ∃ sorted,
    sorted_by_date_ymd_reverse
      [{["date_ymd" := "1970-01-01"; "slug" := "about"]};
       {["date_ymd" := "2021-06-15"; "slug" := "post"]};
       {["date_ymd" := "1970-01-01"; "slug" := "contact"]}]
    = Ok sorted
    ∧ dated "1970-01-01" sorted
      = dated "1970-01-01"
          [{["date_ymd" := "1970-01-01"; "slug" := "about"]};
           {["date_ymd" := "2021-06-15"; "slug" := "post"]};
           {["date_ymd" := "1970-01-01"; "slug" := "contact"]}].
Proof.
  assert (returns (sorted_by_date_ymd_reverse
            [{["date_ymd" := "1970-01-01"; "slug" := "about"]};
             {["date_ymd" := "2021-06-15"; "slug" := "post"]};
             {["date_ymd" := "1970-01-01"; "slug" := "contact"]}]) = true)
    as Hok by (vm_compute; reflexivity).
  destruct (sorted_by_date_ymd_reverse _) as [sorted|e] eqn:Hrun;
    [|discriminate Hok].
  exists sorted. split; [reflexivity|].
  exact (sorted_by_date_ymd_reverse_stable _ sorted "1970-01-01" Hrun).
Defined.

Lemma make_list_fragments_witness :
  (1 ≤ 2)%Z
  ∧ make_list_loop site "<li>{{ title }}</li>" (Some 2%Z) ∅ 0
      [{["dest_path" := "_site/blog/long/index.html"]}] []
    = mapM (render_item site "<li>{{ title }}</li>" ∅)
        (take 2 [{["dest_path" := "_site/blog/long/index.html"]}]).
Proof.
  split; [lia|].
  exact (proj1 (make_list_fragments site "<li>{{ title }}</li>" ∅
                  [{["dest_path" := "_site/blog/long/index.html"]}])
           2%Z ltac:(lia)).
Defined.

Lemma make_list_writes_one_witness :
  ∃ w' dst_path output,
    make_list site [{["dest_path" := "_site/blog/long/index.html"]}]
      "_site/blog/index.html" "<ul>{{ content }}</ul>"
      "<li>{{ title }}</li>" None ∅ = Ok w'
    ∧ files w' = <[dst_path := output]> (files site).
Proof.
  assert (returns (make_list site
            [{["dest_path" := "_site/blog/long/index.html"]}]
            "_site/blog/index.html" "<ul>{{ content }}</ul>"
            "<li>{{ title }}</li>" None ∅) = true) as Hok
    by (vm_compute; reflexivity).
  destruct (make_list site _ _ _ _ None ∅) as [w'|e] eqn:Hrun;
    [|discriminate Hok].
  destruct (make_list_writes_one site w' _ _ _ _ None ∅ Hrun)
    as (items & dst_path & output & _ & _ & _ & Hfiles & _).
  exists w', dst_path, output. split; [reflexivity | exact Hfiles].
Defined.

Lemma make_list_missing_dest_path_witness :
  ({["slug" := "orphan"]} : dict) !! "dest_path" = None
  ∧ (∅ : dict) !! "dest_path" = None
  ∧ make_list site [{["slug" := "orphan"]}] "_site/blog/index.html"
      "<ul>{{ content }}</ul>" "<li>{{ title }}</li>" None ∅
    = Err (KeyError "dest_path").
Proof.
  split; [reflexivity|]. split; [reflexivity|].
  exact (make_list_missing_dest_path site {["slug" := "orphan"]} []
           "_site/blog/index.html" "<ul>{{ content }}</ul>"
           "<li>{{ title }}</li>" None ∅ eq_refl eq_refl).
Defined.

Lemma make_list_html_parameter_witness :
  ({["html" := "x"]} : dict) !! "html" = Some "x"
  ∧ make_list site [] "_site/blog/index.html" "<ul>{{ content }}</ul>"
      "<li>{{ title }}</li>" None {["html" := "x"]}
    = Err (TypeError "render() got multiple values for argument 'html'")
  ∧ make_list site [{["dest_path" := "_site/blog/long/index.html"]}]
      "_site/blog/index.html" "<ul>{{ content }}</ul>"
      "<li>{{ title }}</li>" None {["html" := "x"]}
    = Err (TypeError "render() got multiple values for argument 'html'").
Proof.
  split; [reflexivity|]. split.
  - exact (make_list_html_parameter site [] "_site/blog/index.html"
             "<ul>{{ content }}</ul>" "<li>{{ title }}</li>" None
             {["html" := "x"]} "x" eq_refl).
  - assert (returns
              (dest_path ← getitem
                 (item_params_of {["html" := "x"]}
                    {["dest_path" := "_site/blog/long/index.html"]})
                 "dest_path";
               get_title_and_summary site dest_path) = true) as Hok
      by (vm_compute; reflexivity).
    pose proof (make_list_html_parameter site
                  [{["dest_path" := "_site/blog/long/index.html"]}]
                  "_site/blog/index.html" "<ul>{{ content }}</ul>"
                  "<li>{{ title }}</li>" None {["html" := "x"]} "x" eq_refl)
      as Hrun.
    cbv beta iota in Hrun.
    destruct (dest_path ← getitem
                 (item_params_of {["html" := "x"]}
                    {["dest_path" := "_site/blog/long/index.html"]})
                 "dest_path";
              get_title_and_summary site dest_path) as [r|e];
      [exact Hrun | discriminate Hok].
Defined.

Lemma get_content_path_result_witness :
  ∃ r, get_content_path (λ _, false) "pages" (Some "about") = Ok r
       ∧ (r = "content/" +:+ "about" ∨ r = "content/blog"
          ∨ r = "content/news").
Proof.
  exact (proj1 (get_content_path_result (λ _, false) "pages" (Some "about"))
           "about" eq_refl).
Defined.

Lemma get_title_and_summary_bounded_witness :
  ∃ title summary,
    get_title_and_summary site "_site/blog/long/index.html"
    = Ok (title, summary)
    ∧ length (Str.split summary) ≤ 25.
Proof.
  assert (returns (get_title_and_summary site "_site/blog/long/index.html")
          = true) as Hok by (vm_compute; reflexivity).
  destruct (get_title_and_summary site "_site/blog/long/index.html")
    as [[title summary]|e] eqn:Hrun; [|discriminate Hok].
  exists title, summary. split; [reflexivity|].
  exact (proj1 (get_title_and_summary_bounded site
                  "_site/blog/long/index.html" title summary Hrun)).
Defined.

End MoreRuns.
